(** * AVA OLO document search: information hierarchy and knowledge search

    A shallow embedding of [src/core/information_hierarchy.py] and
    [src/knowledge_search.py], followed by the properties of the tiered
    query router, the privacy validator, the context fingerprint and the
    bulk indexer.

    Conventions of the embedding:
    - a Python [str] is the string of the bytes of its UTF-8 encoding, so
      [s.encode()] is the identity and concatenation commutes with it;
    - a Python [int] is a [Z]; an [Optional[T]] is an [option T];
    - a Python [dict] with string keys is a [gmap string _], except the
      source registry, whose iteration order matters and which is kept as
      an association list in insertion order;
    - code that logs, calls a collaborator or may raise runs in the monad
      [Exec]: a state of the collaborators and a trace of events are
      threaded through, and the outcome is a value or a raised exception. *)

From Stdlib Require Import ZArith List Ascii String Bool Lia QArith.
From stdpp Require Import base gmap strings list fin_maps pretty.
Import ListNotations.
Set Warnings "-register-all".
Local Open Scope Z_scope.
Local Open Scope string_scope.
Local Open Scope list_scope.

(** ** SHA-256 (FIPS 180-4), as computed by [hashlib.sha256] *)

Module Sha256.

Definition w32 (x : Z) : Z := x mod 2 ^ 32.
Definition add32 (x y : Z) : Z := w32 (x + y).
Definition rotr (n x : Z) : Z :=
  Z.lor (Z.shiftr x n) (w32 (Z.shiftl x (32 - n))).
Definition not32 (x : Z) : Z := Z.lxor x (2 ^ 32 - 1).

Definition Ch (x y z : Z) : Z := Z.lxor (Z.land x y) (Z.land (not32 x) z).
Definition Maj (x y z : Z) : Z :=
  Z.lxor (Z.lxor (Z.land x y) (Z.land x z)) (Z.land y z).
Definition bsig0 (x : Z) : Z := Z.lxor (Z.lxor (rotr 2 x) (rotr 13 x)) (rotr 22 x).
Definition bsig1 (x : Z) : Z := Z.lxor (Z.lxor (rotr 6 x) (rotr 11 x)) (rotr 25 x).
Definition ssig0 (x : Z) : Z := Z.lxor (Z.lxor (rotr 7 x) (rotr 18 x)) (Z.shiftr x 3).
Definition ssig1 (x : Z) : Z := Z.lxor (Z.lxor (rotr 17 x) (rotr 19 x)) (Z.shiftr x 10).

(** The constants are derived as the standard defines them: the first 32
    bits of the fractional parts of the cube roots of the first 64 primes
    (the round constants) and of the square roots of the first 8 primes
    (the initial hash value). *)
Definition is_prime (p : nat) : bool :=
  forallb (fun d => negb (Nat.eqb (Nat.modulo p d) 0)) (seq 2 (p - 2)).

Definition primes : list Z :=
  map Z.of_nat (List.filter is_prime (seq 2 310)).

(** The integer cube root of a number below 2 ^ 132, bit by bit. *)
Definition cube_root (n : Z) : Z :=
  fold_left (fun r b => let r' := r + 2 ^ Z.of_nat b in
                        if (r' * r' * r' <=? n)%Z then r' else r)
            (rev (seq 0 44)) 0.

Definition K : list Z := map (fun p => w32 (cube_root (p * 2 ^ 96))) primes.

(** The eight working words; a record, so that a digest has eight words
    by construction. *)
Record state := State {
  h0 : Z; h1 : Z; h2 : Z; h3 : Z; h4 : Z; h5 : Z; h6 : Z; h7 : Z }.

Definition root_word (i : nat) : Z := w32 (Z.sqrt (nth i primes 0 * 2 ^ 64)).

Definition init : state :=
  State (root_word 0) (root_word 1) (root_word 2) (root_word 3)
        (root_word 4) (root_word 5) (root_word 6) (root_word 7).

(** Padding: the byte 0x80, zero bytes up to 56 modulo 64, and the bit
    length as a big-endian 64-bit number. *)
Definition be_bytes (n : nat) (x : Z) : list Z :=
  map (fun i => (x / 256 ^ Z.of_nat i) mod 256) (rev (seq 0 n)).

Definition pad (msg : list Z) : list Z :=
  let len := Z.of_nat (length msg) in
  let zeros := Z.to_nat ((55 - len) mod 64) in
  msg ++ [0x80] ++ repeat 0 zeros ++ be_bytes 8 ((8 * len) mod 2 ^ 64).

Fixpoint words (bs : list Z) : list Z :=
  match bs with
  | a :: b :: c :: d :: rest =>
      (((a * 256 + b) * 256 + c) * 256 + d) :: words rest
  | _ => []
  end.

(** Message schedule. [rw] holds the words computed so far, newest
    first, so W(t-2), W(t-7), W(t-15) and W(t-16) sit at positions 1, 6,
    14 and 15. *)
Fixpoint extend (n : nat) (rw : list Z) : list Z :=
  match n with
  | O => rw
  | S n' =>
      let wt := add32 (add32 (add32 (ssig1 (nth 1 rw 0)) (nth 6 rw 0))
                             (ssig0 (nth 14 rw 0))) (nth 15 rw 0) in
      extend n' (wt :: rw)
  end.

Definition schedule (block : list Z) : list Z :=
  rev (extend 48 (rev block)).

Definition round (s : state) (kw : Z * Z) : state :=
  let t1 := add32 (add32 (add32 (add32 (h7 s) (bsig1 (h4 s)))
                                (Ch (h4 s) (h5 s) (h6 s))) (fst kw)) (snd kw) in
  let t2 := add32 (bsig0 (h0 s)) (Maj (h0 s) (h1 s) (h2 s)) in
  State (add32 t1 t2) (h0 s) (h1 s) (h2 s) (add32 (h3 s) t1) (h4 s) (h5 s) (h6 s).

Definition compress (s : state) (block : list Z) : state :=
  let r := fold_left round (combine K (schedule block)) s in
  State (add32 (h0 s) (h0 r)) (add32 (h1 s) (h1 r))
        (add32 (h2 s) (h2 r)) (add32 (h3 s) (h3 r))
        (add32 (h4 s) (h4 r)) (add32 (h5 s) (h5 r))
        (add32 (h6 s) (h6 r)) (add32 (h7 s) (h7 r)).

Fixpoint blocks (n : nat) (ws : list Z) (s : state) : state :=
  match n with
  | O => s
  | S n' => blocks n' (skipn 16 ws) (compress s (firstn 16 ws))
  end.

Definition digest (msg : list Z) : state :=
  let ws := words (pad msg) in
  blocks (Nat.div (length ws) 16) ws init.

Definition hex_digit (d : Z) : ascii :=
  nth (Z.to_nat d)
      (list_ascii_of_string "0123456789abcdef") "0"%char.

Definition hex8 (x : Z) : string :=
  string_of_list_ascii
    (map (fun i => hex_digit ((x / 16 ^ Z.of_nat i) mod 16)) (rev (seq 0 8))).

Definition bytes_of_string (s : string) : list Z :=
  map (fun c => Z.of_nat (nat_of_ascii c)) (list_ascii_of_string s).

(** [hashlib.sha256(data).hexdigest()] *)
Definition hexdigest (data : string) : string :=
  let d := digest (bytes_of_string data) in
  hex8 (h0 d) ++ hex8 (h1 d) ++ hex8 (h2 d) ++ hex8 (h3 d) ++
  hex8 (h4 d) ++ hex8 (h5 d) ++ hex8 (h6 d) ++ hex8 (h7 d).

End Sha256.


(** ** Python values, exceptions and effects *)

(** The values a [Dict[str, Any]] of the program holds. *)
Inductive PyVal : Type :=
| VNone
| VBool (b : bool)
| VInt (z : Z)
| VFloat (q : Q)
| VStr (s : string)
| VList (l : list PyVal)
| VDict (d : gmap string PyVal).

(** Exceptions, all of them subclasses of [Exception]: what an
    [except Exception] clause catches. Interrupts and cancellations, which
    are not, are outside the model, and an [await] is the call it waits
    for. A [KeyError] carries the [repr] of the missing key, which is
    what [str] prints of it; the others carry their message. *)
Inductive Exn : Type :=
| KeyError (key_repr : string)
| AttributeError (msg : string)
| TypeError (msg : string)
| IndexError (msg : string)
| RuntimeError (msg : string).

Inductive Outcome (A : Type) : Type :=
| Returned (a : A)
| Raised (e : Exn).
Arguments Returned {A} a.
Arguments Raised {A} e.


Inductive Level : Type := DEBUG | INFO | ERROR.

(** [class InformationRelevance(Enum)] *)
Inductive InformationRelevance : Type :=
| FARMER_SPECIFIC
| COUNTRY_SPECIFIC
| GLOBAL.

Definition relevance_value (r : InformationRelevance) : string :=
  match r with
  | FARMER_SPECIFIC => "FARMER"
  | COUNTRY_SPECIFIC => "COUNTRY"
  | GLOBAL => "GLOBAL"
  end.

Definition relevance_eqb (a b : InformationRelevance) : bool :=
  match a, b with
  | FARMER_SPECIFIC, FARMER_SPECIFIC => true
  | COUNTRY_SPECIFIC, COUNTRY_SPECIFIC => true
  | GLOBAL, GLOBAL => true
  | _, _ => false
  end.

(** What the program does to its environment. A [Log] keeps the literal
    text of the logged f-string, with [{}] where a value is interpolated,
    and that value. A [Retrieve] marks the point where a tier loop hands
    over to the retrieval method on behalf of a registered source. *)
Inductive Event : Type :=
| Log (level : Level) (text : string) (arg : PyVal)
| Retrieve (tier : InformationRelevance) (source_id : string).

(** The world a call runs in: the state [X] of the collaborators (clock,
    stores, remote services) and the events emitted so far. *)
Record World (X : Type) : Type := mkWorld {
  collab : X;
  trace : list Event }.
Arguments mkWorld {X} collab trace.
Arguments collab {X} w.
Arguments trace {X} w.

Definition Exec (X A : Type) : Type := World X -> Outcome A * World X.

(** A collaborator call: it may change the collaborator state and may
    raise; it never touches the trace. *)
Definition Ext (X A : Type) : Type := X -> Outcome A * X.

Section Monad.
Context {X : Type}.

Definition ret {A} (a : A) : Exec X A := fun w => (Returned a, w).

Definition bind {A B} (m : Exec X A) (k : A -> Exec X B) : Exec X B :=
  fun w => match m w with
           | (Returned a, w') => k a w'
           | (Raised e, w') => (Raised e, w')
           end.

Definition raise {A} (e : Exn) : Exec X A := fun w => (Raised e, w).

(** [try: body except Exception as e: handler(e)] *)
Definition try_except {A} (body : Exec X A) (handler : Exn -> Exec X A) : Exec X A :=
  fun w => match body w with
           | (Returned a, w') => (Returned a, w')
           | (Raised e, w') => handler e w'
           end.

Definition emit (ev : Event) : Exec X unit :=
  fun w => (Returned tt, mkWorld (collab w) (trace w ++ [ev])).

Definition call {A} (f : Ext X A) : Exec X A :=
  fun w => let (o, x) := f (collab w) in (o, mkWorld x (trace w)).

Definition lift {A} (o : Outcome A) : Exec X A := fun w => (o, w).

Definition logger_debug (text : string) (arg : PyVal) : Exec X unit :=
  emit (Log DEBUG text arg).
Definition logger_info (text : string) (arg : PyVal) : Exec X unit :=
  emit (Log INFO text arg).
Definition logger_error (text : string) (arg : PyVal) : Exec X unit :=
  emit (Log ERROR text arg).

End Monad.

Declare Scope exec_scope.
Delimit Scope exec_scope with exec.
Notation "x <- m ;; k" := (bind m (fun x => k))
  (at level 100, m at next level, right associativity) : exec_scope.
Notation "m ;;; k" := (bind m (fun _ => k))
  (at level 100, right associativity) : exec_scope.
Local Open Scope exec_scope.

(** [for a in l: s = body(a, s)] *)
Fixpoint for_each {X A S} (l : list A) (body : A -> S -> Exec X S) (s : S)
  : Exec X S :=
  match l with
  | [] => ret s
  | a :: l' => s' <- body a s ;; for_each l' body s'
  end.

(** Truthiness, membership and slicing as Python defines them. *)
Definition truthy_opt_int (o : option Z) : bool :=
  match o with
  | Some n => negb (n =? 0)%Z
  | None => false
  end.

Definition truthy_str (s : string) : bool :=
  match s with
  | EmptyString => false
  | String _ _ => true
  end.

Definition truthy_list {A} (l : list A) : bool :=
  match l with
  | [] => false
  | _ :: _ => true
  end.

Definition py_in (r : InformationRelevance) (l : list InformationRelevance) : bool :=
  existsb (relevance_eqb r) l.

(** [l[:n]]: the first [n] items, and for a negative [n] all but the
    last [-n]. *)
Definition py_slice_to {A} (l : list A) (n : Z) : list A :=
  if (0 <=? n)%Z then firstn (Z.to_nat n) l
  else firstn (Z.to_nat (Z.of_nat (length l) + n)) l.

(** [s[:n]] on a string. *)
Definition str_slice_to (s : string) (n : Z) : string :=
  string_of_list_ascii (py_slice_to (list_ascii_of_string s) n).

(** [f"{v}"] for an [Optional[int]] and an [Optional[str]]. *)
Definition format_opt_int (o : option Z) : string :=
  match o with
  | Some n => pretty n
  | None => "None"
  end.

Definition format_opt_str (o : option string) : string :=
  match o with
  | Some s => s
  | None => "None"
  end.

Definition opt_int_val (o : option Z) : PyVal :=
  match o with
  | Some n => VInt n
  | None => VNone
  end.

(** [d[k] = v] on a dict kept in insertion order: an existing key keeps
    its place. *)
Fixpoint dict_set {V} (k : string) (v : V) (d : list (string * V))
  : list (string * V) :=
  match d with
  | [] => [(k, v)]
  | (k', v') :: rest =>
      if String.eqb k' k then (k, v) :: rest else (k', v') :: dict_set k v rest
  end.

(** ** [core/information_hierarchy.py]: the data model *)

(** [@dataclass class InformationItem] *)
Module InformationItem.
Record t : Type := mk {
  content : string;
  relevance : InformationRelevance;
  farmer_id : option Z;
  country_code : option string;
  language : option string;
  source_type : string;
  metadata : option (gmap string PyVal) }.
End InformationItem.

(** [@dataclass class LocalizationContext] *)
Module LocalizationContext.
Record t : Type := mk {
  whatsapp_number : string;
  country_code : string;
  country_name : string;
  languages : list string;
  farmer_id : option Z;
  preferred_language : option string;
  timezone : option string;
  agricultural_zones : option (list string) }.
End LocalizationContext.

(** [@dataclass class InformationSource] *)
Module InformationSource.
Record t : Type := mk {
  source_id : string;
  source_type : string;
  source_name : string;
  can_access_farmer_data : bool;
  can_access_country_data : bool;
  can_access_global_data : bool;
  metadata : gmap string PyVal }.
End InformationSource.

(** [@dataclass class InformationQuery] *)
Module InformationQuery.
Record t : Type := mk {
  query_text : string;
  context : LocalizationContext.t;
  required_relevance_levels : list InformationRelevance;
  max_items_per_level : Z;
  include_metadata : bool }.

(** The constructor with the defaults of the dataclass. *)
Definition new (query_text : string) (context : LocalizationContext.t) : t :=
  mk query_text context [FARMER_SPECIFIC; COUNTRY_SPECIFIC; GLOBAL] 5 true.
End InformationQuery.

(** [@dataclass class InformationResult] *)
Module InformationResult.
Record t : Type := mk {
  query : InformationQuery.t;
  farmer_items : list InformationItem.t;
  country_items : list InformationItem.t;
  global_items : list InformationItem.t;
  metadata : gmap string PyVal }.

Definition new (query : InformationQuery.t) : t := mk query [] [] [] ∅.

Definition set_farmer_items (r : t) (l : list InformationItem.t) : t :=
  mk (query r) l (country_items r) (global_items r) (metadata r).
Definition set_country_items (r : t) (l : list InformationItem.t) : t :=
  mk (query r) (farmer_items r) l (global_items r) (metadata r).
Definition set_global_items (r : t) (l : list InformationItem.t) : t :=
  mk (query r) (farmer_items r) (country_items r) l (metadata r).
Definition set_metadata (r : t) (m : gmap string PyVal) : t :=
  mk (query r) (farmer_items r) (country_items r) (global_items r) m.

Definition get_all_items_by_priority (self : t) : list InformationItem.t :=
  farmer_items self ++ country_items self ++ global_items self.
End InformationResult.

(** The state of an [InformationHierarchyManager]: the registry, a dict
    from source id to source in insertion order. *)
Record InformationHierarchyManager : Type := mkManager {
  sources : list (string * InformationSource.t) }.

(** The three retrieval methods of the manager. The class ships
    placeholders ([mock_retrieval] below) that the source says are to be
    replaced by the real implementations; a subclass overrides them. *)
Record Retrieval (X : Type) : Type := mkRetrieval {
  _mock_farmer_database_query : InformationQuery.t -> Ext X (list InformationItem.t);
  _mock_country_rag_query : InformationQuery.t -> Ext X (list InformationItem.t);
  _mock_global_query : InformationQuery.t -> Ext X (list InformationItem.t) }.
Arguments _mock_farmer_database_query {X} r q x.
Arguments _mock_country_rag_query {X} r q x.
Arguments _mock_global_query {X} r q x.

(** What the Python runtime supplies: the clocks behind
    [datetime.utcnow().isoformat()] and [datetime.now().isoformat()],
    [str.lower], the built-in [hash] and the [str()] of a value. *)
Record Platform (X : Type) : Type := mkPlatform {
  utcnow_isoformat : X -> string * X;
  now_isoformat : X -> string * X;
  str_lower : string -> string;
  py_hash : PyVal -> Outcome Z;
  py_str : PyVal -> string }.
Arguments utcnow_isoformat {X} p x.
Arguments now_isoformat {X} p x.
Arguments str_lower {X} p s.
Arguments py_hash {X} p v.
Arguments py_str {X} p v.

Definition read_clock {X} (clock : X -> string * X) : Exec X string :=
  fun w => let (s, x) := clock (collab w) in (Returned s, mkWorld x (trace w)).

(** ** [core/information_hierarchy.py]: the manager *)

Section Registry.
Context {X : Type}.

Definition register_source (self : InformationHierarchyManager)
    (source : InformationSource.t) : Exec X InformationHierarchyManager :=
  let self := mkManager (dict_set (InformationSource.source_id source) source
                                  (sources self)) in
  logger_info "Registered information source: {}"
              (VStr (InformationSource.source_name source)) ;;;
  ret self.

Definition _register_default_sources (self : InformationHierarchyManager)
  : Exec X InformationHierarchyManager :=
  self <- register_source self
            (InformationSource.mk "farmer_db" "database" "Farmer Database"
                                  true true false ∅) ;;
  self <- register_source self
            (InformationSource.mk "rag_knowledge" "rag" "Agricultural Knowledge Base"
                                  false true true ∅) ;;
  register_source self
    (InformationSource.mk "external_search" "external" "Web Search (Perplexity)"
                          false false true ∅).

(** [InformationHierarchyManager.__init__] *)
Definition __init__ : Exec X InformationHierarchyManager :=
  _register_default_sources (mkManager []).

Definition validate_privacy_compliance (item : InformationItem.t)
    (source : InformationSource.t) : Exec X bool :=
  let country_rule : Exec X bool :=
    if relevance_eqb (InformationItem.relevance item) COUNTRY_SPECIFIC then
      if negb (InformationSource.can_access_country_data source) then
        logger_error "Privacy violation: {} attempted to provide country data"
                     (VStr (InformationSource.source_name source)) ;;;
        ret false
      else ret true
    else ret true in
  if relevance_eqb (InformationItem.relevance item) FARMER_SPECIFIC then
    if negb (InformationSource.can_access_farmer_data source) then
      logger_error "Privacy violation: {} attempted to provide farmer data"
                   (VStr (InformationSource.source_name source)) ;;;
      ret false
    else country_rule
  else country_rule.

End Registry.

Section Router.
Context {X : Type} (P : Platform X) (R : Retrieval X).

Definition _query_farmer_specific (self : InformationHierarchyManager)
    (query : InformationQuery.t) : Exec X (list InformationItem.t) :=
  for_each (sources self)
    (fun '(source_id, source) items =>
       if InformationSource.can_access_farmer_data source
          && truthy_opt_int (LocalizationContext.farmer_id
                               (InformationQuery.context query))
       then
         logger_debug "Querying farmer data from {}"
                      (VStr (InformationSource.source_name source)) ;;;
         if String.eqb (InformationSource.source_type source) "database" then
           emit (Retrieve FARMER_SPECIFIC source_id) ;;;
           found <- call (_mock_farmer_database_query R query) ;;
           ret (items ++ found)
         else ret items
       else ret items)
    [].

Definition _query_country_specific (self : InformationHierarchyManager)
    (query : InformationQuery.t) : Exec X (list InformationItem.t) :=
  for_each (sources self)
    (fun '(source_id, source) items =>
       if InformationSource.can_access_country_data source
          && truthy_str (LocalizationContext.country_code
                           (InformationQuery.context query))
       then
         logger_debug "Querying country data from {}"
                      (VStr (InformationSource.source_name source)) ;;;
         if String.eqb (InformationSource.source_type source) "rag" then
           emit (Retrieve COUNTRY_SPECIFIC source_id) ;;;
           found <- call (_mock_country_rag_query R query) ;;
           ret (items ++ found)
         else ret items
       else ret items)
    [].

Definition _query_global (self : InformationHierarchyManager)
    (query : InformationQuery.t) : Exec X (list InformationItem.t) :=
  for_each (sources self)
    (fun '(source_id, source) items =>
       if InformationSource.can_access_global_data source then
         logger_debug "Querying global data from {}"
                      (VStr (InformationSource.source_name source)) ;;;
         if String.eqb (InformationSource.source_type source) "rag"
            || String.eqb (InformationSource.source_type source) "external"
         then
           emit (Retrieve GLOBAL source_id) ;;;
           found <- call (_mock_global_query R query) ;;
           ret (items ++ found)
         else ret items
       else ret items)
    [].

Definition _hash_context (context : LocalizationContext.t) : string :=
  let context_str :=
    LocalizationContext.whatsapp_number context +:+ ":" +:+
    LocalizationContext.country_code context +:+ ":" +:+
    format_opt_str (LocalizationContext.preferred_language context) in
  str_slice_to (Sha256.hexdigest context_str) 16.

Definition py_len (l : list InformationItem.t) : PyVal :=
  VInt (Z.of_nat (length l)).

Definition _log_query (result : InformationResult.t) : Exec X unit :=
  let q := InformationResult.query result in
  timestamp <- read_clock (utcnow_isoformat P) ;;
  let log_entry : gmap string PyVal :=
    {[ "timestamp" := VStr timestamp;
       "query" := VStr (InformationQuery.query_text q);
       "farmer_id" := opt_int_val (LocalizationContext.farmer_id
                                     (InformationQuery.context q));
       "country" := VStr (LocalizationContext.country_code
                            (InformationQuery.context q));
       "items_found" := VDict
         {[ "farmer" := py_len (InformationResult.farmer_items result);
            "country" := py_len (InformationResult.country_items result);
            "global" := py_len (InformationResult.global_items result) ]} ]} in
  logger_info "Information query completed: {}" (VDict log_entry).

Definition query_information (self : InformationHierarchyManager)
    (query : InformationQuery.t) : Exec X InformationResult.t :=
  let levels := InformationQuery.required_relevance_levels query in
  let cap := InformationQuery.max_items_per_level query in
  let result := InformationResult.new query in
  let sources_used : list string := [] in
  st <- (if py_in FARMER_SPECIFIC levels then
           farmer_items <- _query_farmer_specific self query ;;
           ret (InformationResult.set_farmer_items result
                  (py_slice_to farmer_items cap),
                if truthy_list farmer_items
                then sources_used ++ ["farmer_specific"] else sources_used)
         else ret (result, sources_used)) ;;
  let '(result, sources_used) := st in
  st <- (if py_in COUNTRY_SPECIFIC levels then
           country_items <- _query_country_specific self query ;;
           ret (InformationResult.set_country_items result
                  (py_slice_to country_items cap),
                if truthy_list country_items
                then sources_used ++ ["country_specific"] else sources_used)
         else ret (result, sources_used)) ;;
  let '(result, sources_used) := st in
  st <- (if py_in GLOBAL levels then
           global_items <- _query_global self query ;;
           ret (InformationResult.set_global_items result
                  (py_slice_to global_items cap),
                if truthy_list global_items
                then sources_used ++ ["global"] else sources_used)
         else ret (result, sources_used)) ;;
  let '(result, sources_used) := st in
  query_timestamp <- read_clock (utcnow_isoformat P) ;;
  let result := InformationResult.set_metadata result
    {[ "query_timestamp" := VStr query_timestamp;
       "sources_used" := VList (map VStr sources_used);
       "total_items" := py_len (InformationResult.get_all_items_by_priority result);
       "context_hash" := VStr (_hash_context (InformationQuery.context query)) ]} in
  _log_query result ;;;
  ret result.

End Router.

(** The placeholder retrieval methods of the class. *)
Definition mock_farmer_database_query {X} (query : InformationQuery.t)
  : Ext X (list InformationItem.t) :=
  fun x =>
    let farmer_id := LocalizationContext.farmer_id (InformationQuery.context query) in
    (Returned
       [ InformationItem.mk
           ("Farmer " +:+ format_opt_int farmer_id +:+ "'s fields and current crops")
           FARMER_SPECIFIC farmer_id None None "database"
           (Some {[ "table" := VStr "fields";
                    "query_type" := VStr "farmer_overview" ]}) ], x).

Definition mock_country_rag_query {X} (query : InformationQuery.t)
  : Ext X (list InformationItem.t) :=
  fun x =>
    let ctx := InformationQuery.context query in
    (Returned
       [ InformationItem.mk
           ("Agricultural regulations in " +:+ LocalizationContext.country_name ctx)
           COUNTRY_SPECIFIC None (Some (LocalizationContext.country_code ctx)) None "rag"
           (Some {[ "document" := VStr "country_regulations";
                    "relevance_score" := VFloat (95 # 100) ]}) ], x).

Definition mock_global_query {X} (query : InformationQuery.t)
  : Ext X (list InformationItem.t) :=
  fun x =>
    (Returned
       [ InformationItem.mk
           "General agricultural best practices"
           GLOBAL None None None "rag"
           (Some {[ "document" := VStr "global_agriculture";
                    "relevance_score" := VFloat (85 # 100) ]}) ], x).

Definition mock_retrieval {X} : Retrieval X :=
  mkRetrieval X mock_farmer_database_query mock_country_rag_query mock_global_query.

(** ** [knowledge_search.py] *)

(** A match of a Pinecone query: [match.id], [match.score] and
    [match.metadata]. *)
Module Match.
Record t : Type := mk {
  id : string;
  score : Q;
  metadata : gmap string PyVal }.
End Match.

(** The two remote clients of a [KnowledgeSearch]:
    [openai_client.embeddings.create(model, input).data[0].embedding],
    [index.query(vector, filter, top_k, include_metadata=True).matches]
    and [index.upsert(vectors=[(id, vector, metadata)])]. *)
Record Backend (X : Type) : Type := mkBackend {
  embeddings_create : string -> PyVal -> Ext X (list Q);
  index_query : list Q -> option (gmap string PyVal) -> Z -> Ext X (list Match.t);
  index_upsert : string -> list Q -> gmap string PyVal -> Ext X unit }.
Arguments embeddings_create {X} b model input x.
Arguments index_query {X} b vector filter top_k x.
Arguments index_upsert {X} b doc_id vector metadata x.

(** [type(v).__name__] *)
Definition py_type_name (v : PyVal) : string :=
  match v with
  | VNone => "NoneType"
  | VBool _ => "bool"
  | VInt _ => "int"
  | VFloat _ => "float"
  | VStr _ => "str"
  | VList _ => "list"
  | VDict _ => "dict"
  end.

(** [repr(s)] of a string, as CPython writes it: between single quotes,
    or between double quotes when the string holds a single quote and no
    double quote; the backslash, the quote in use and the control
    characters are escaped. A byte above 127 is part of the UTF-8
    encoding of a character beyond ASCII and is kept, as CPython keeps a
    printable character. *)
Definition backslash : ascii := ascii_of_nat 92.
Definition double_quote : ascii := ascii_of_nat 34.
Definition single_quote : ascii := ascii_of_nat 39.

Definition repr_quote (s : string) : ascii :=
  let chars := list_ascii_of_string s in
  if existsb (Ascii.eqb single_quote) chars
     && negb (existsb (Ascii.eqb double_quote) chars)
  then double_quote else single_quote.

Definition hex_char (n : nat) : ascii :=
  nth n (list_ascii_of_string "0123456789abcdef") "0"%char.

Definition repr_char (quote c : ascii) : string :=
  let n := nat_of_ascii c in
  if Ascii.eqb c backslash || Ascii.eqb c quote then String backslash (String c "")
  else if Nat.eqb n 9 then String backslash "t"
  else if Nat.eqb n 10 then String backslash "n"
  else if Nat.eqb n 13 then String backslash "r"
  else if Nat.ltb n 32 || Nat.eqb n 127
       then String backslash
              (String "x" (String (hex_char (Nat.div n 16))
                                  (String (hex_char (Nat.modulo n 16)) "")))
  else String c "".

Definition py_repr_str (s : string) : string :=
  let quote := repr_quote s in
  String quote
         (String.concat "" (map (repr_char quote) (list_ascii_of_string s))
          +:+ String quote "").

(** [str(e)]; for a [KeyError] the [repr] of the key. *)
Definition exn_str (e : Exn) : string :=
  match e with
  | KeyError key_repr => key_repr
  | AttributeError msg => msg
  | TypeError msg => msg
  | IndexError msg => msg
  | RuntimeError msg => msg
  end.

Section KnowledgeSearch.
Context {X : Type} (P : Platform X) (B : Backend X).

Definition embedding_model : string := "text-embedding-ada-002".

(** [d[k]] *)
Definition dict_get {V} (d : gmap string V) (k : string) : Exec X V :=
  match d !! k with
  | Some v => ret v
  | None => raise (KeyError (py_repr_str k))
  end.

(** [d.get(k, dflt)] *)
Definition dict_get_default {V} (d : gmap string V) (k : string) (dflt : V) : V :=
  match d !! k with
  | Some v => v
  | None => dflt
  end.

(** [d[k] += 1] *)
Definition dict_incr (d : gmap string Z) (k : string) : Exec X (gmap string Z) :=
  v <- dict_get d k ;;
  ret (<[k := v + 1]> d).

(** [v.lower()], defined on strings only. *)
Definition py_lower (v : PyVal) : Exec X PyVal :=
  match v with
  | VStr s => ret (VStr (str_lower P s))
  | _ => raise (AttributeError ("'" +:+ py_type_name v
                                +:+ "' object has no attribute 'lower'"))
  end.

Definition _get_embedding (text : PyVal) : Exec X (list Q) :=
  try_except
    (call (embeddings_create B embedding_model text))
    (fun e =>
       logger_error "Embedding generation error: {}" (VStr (exn_str e)) ;;;
       raise e).

Definition _build_filter (filters : gmap string PyVal)
  : Exec X (gmap string PyVal) :=
  let pinecone_filter : gmap string PyVal := ∅ in
  let pinecone_filter :=
    match filters !! "document_type" with
    | Some v => <["document_type" := v]> pinecone_filter
    | None => pinecone_filter
    end in
  pinecone_filter <-
    match filters !! "crop" with
    | Some v => low <- py_lower v ;; ret (<["crop" := low]> pinecone_filter)
    | None => ret pinecone_filter
    end ;;
  pinecone_filter <-
    match filters !! "chemical" with
    | Some v => low <- py_lower v ;; ret (<["chemical" := low]> pinecone_filter)
    | None => ret pinecone_filter
    end ;;
  let pinecone_filter :=
    match filters !! "language" with
    | Some v => <["language" := v]> pinecone_filter
    | None => pinecone_filter
    end in
  ret pinecone_filter.

(** The body of the loop over [results.matches] in [search]. *)
Definition document_of_match (m : Match.t) : gmap string PyVal :=
  let md := Match.metadata m in
  let doc : gmap string PyVal :=
    {[ "id" := VStr (Match.id m);
       "score" := VFloat (Match.score m);
       "text" := dict_get_default md "text" (VStr "");
       "source" := dict_get_default md "source" (VStr "unknown");
       "document_type" := dict_get_default md "document_type" (VStr "general");
       "language" := dict_get_default md "language" (VStr "hr");
       "metadata" := VDict md ]} in
  let doc :=
    match md !! "crop" with Some v => <["crop" := v]> doc | None => doc end in
  let doc :=
    match md !! "chemical" with Some v => <["chemical" := v]> doc | None => doc end in
  let doc :=
    match md !! "phi_days" with Some v => <["phi_days" := v]> doc | None => doc end in
  doc.

(** [if filters] on an [Optional[Dict]]: [None] and the empty dict are
    falsy. *)
Definition truthy_filters (filters : option (gmap string PyVal)) : bool :=
  match filters with
  | Some f => negb (bool_decide (f = ∅))
  | None => false
  end.

Definition search (query : string) (filters : option (gmap string PyVal))
    (top_k : Z) : Exec X (list (gmap string PyVal)) :=
  try_except
    (embedding <- _get_embedding (VStr query) ;;
     pinecone_filter <-
       match filters with
       | Some f =>
           if truthy_filters filters
           then pf <- _build_filter f ;; ret (Some pf)
           else ret None
       | None => ret None
       end ;;
     matches <- call (index_query B embedding pinecone_filter top_k) ;;
     documents <-
       for_each matches
         (fun m documents => ret (documents ++ [document_of_match m])) [] ;;
     logger_info "Found {} documents for query: {}"
       (VList [VInt (Z.of_nat (length documents)); VStr query]) ;;;
     ret documents)
    (fun e =>
       logger_error "Knowledge search error: {}" (VStr (exn_str e)) ;;;
       ret []).

Definition add_document (document : gmap string PyVal) : Exec X bool :=
  try_except
    (text <- dict_get document "text" ;;
     embedding <- _get_embedding text ;;
     text <- dict_get document "text" ;;
     indexed_at <- read_clock (now_isoformat P) ;;
     let metadata : gmap string PyVal :=
       {[ "text" := text;
          "source" := dict_get_default document "source" (VStr "manual");
          "document_type" :=
            dict_get_default document "document_type" (VStr "general");
          "language" := dict_get_default document "language" (VStr "hr");
          "indexed_at" := VStr indexed_at ]} in
     metadata <-
       match document !! "crop" with
       | Some v => low <- py_lower v ;; ret (<["crop" := low]> metadata)
       | None => ret metadata
       end ;;
     metadata <-
       match document !! "chemical" with
       | Some v => low <- py_lower v ;; ret (<["chemical" := low]> metadata)
       | None => ret metadata
       end ;;
     let metadata :=
       match document !! "phi_days" with
       | Some v => <["phi_days" := v]> metadata
       | None => metadata
       end in
     text <- dict_get document "text" ;;
     h <- lift (py_hash P text) ;;
     let doc_id :=
       py_str P (dict_get_default document "source" (VStr "doc"))
       +:+ "_" +:+ pretty h in
     call (index_upsert B doc_id embedding metadata) ;;;
     logger_info "Added document {} to knowledge base" (VStr doc_id) ;;;
     ret true)
    (fun e =>
       logger_error "Error adding document: {}" (VStr (exn_str e)) ;;;
       ret false).

Definition bulk_index_fis_documents (documents : list (gmap string PyVal))
  : Exec X (gmap string Z) :=
  let stats : gmap string Z :=
    {[ "total" := Z.of_nat (length documents);
       "success" := 0;
       "failed" := 0 ]} in
  stats <-
    for_each documents
      (fun doc stats =>
         success <- add_document doc ;;
         if success then dict_incr stats "success"
         else dict_incr stats "failed")
      stats ;;
  logger_info "Bulk indexing complete: {}" (VDict (VInt <$> stats)) ;;;
  ret stats.

End KnowledgeSearch.

(** ** [core/information_hierarchy.py]: serialization and diagnostics *)

(** [d.get(k)] on a dict kept in insertion order. *)
Fixpoint dict_lookup {V} (k : string) (d : list (string * V)) : option V :=
  match d with
  | [] => None
  | (k', v) :: rest => if String.eqb k' k then Some v else dict_lookup k rest
  end.

(** [{"content": item.content, "source": item.source_type}] *)
Definition item_entry (item : InformationItem.t) : PyVal :=
  VDict {[ "content" := VStr (InformationItem.content item);
           "source" := VStr (InformationItem.source_type item) ]}.

(** [InformationResult.to_dict] *)
Definition to_dict (self : InformationResult.t) : gmap string PyVal :=
  let ctx := InformationQuery.context (InformationResult.query self) in
  {[ "query" := VStr (InformationQuery.query_text (InformationResult.query self));
     "farmer_id" := opt_int_val (LocalizationContext.farmer_id ctx);
     "country_code" := VStr (LocalizationContext.country_code ctx);
     "items" := VDict
       {[ "farmer_specific" :=
            VList (map item_entry (InformationResult.farmer_items self));
          "country_specific" :=
            VList (map item_entry (InformationResult.country_items self));
          "global" :=
            VList (map item_entry (InformationResult.global_items self)) ]};
     "metadata" := VDict (InformationResult.metadata self) ]}.

Definition source_capabilities (source : InformationSource.t) : gmap string PyVal :=
  {[ "farmer_data" := VBool (InformationSource.can_access_farmer_data source);
     "country_data" := VBool (InformationSource.can_access_country_data source);
     "global_data" := VBool (InformationSource.can_access_global_data source);
     "source_type" := VStr (InformationSource.source_type source) ]}.

(** [get_source_capabilities]: the dict comprehension over
    [self.sources.items()], entry after entry. *)
Definition get_source_capabilities (self : InformationHierarchyManager)
  : list (string * gmap string PyVal) :=
  fold_left (fun acc '(source_id, source) =>
               dict_set source_id (source_capabilities source) acc)
            (sources self) [].

(** ** [knowledge_search.py]: the specialized searches *)

(** [k in s] for two strings. *)
Fixpoint contains_substring (k s : string) : bool :=
  String.prefix k s
  || match s with
     | EmptyString => false
     | String _ s' => contains_substring k s'
     end.

Definition truthy_opt_str (o : option string) : bool :=
  match o with
  | Some s => truthy_str s
  | None => false
  end.

Section SpecializedSearch.
Context {X : Type} (P : Platform X) (B : Backend X).

(** [k in v] for a string [k]. *)
Definition py_contains (v : PyVal) (k : string) : Exec X bool :=
  match v with
  | VDict d => ret (match d !! k with Some _ => true | None => false end)
  | VList l =>
      ret (existsb (fun e => match e with
                             | VStr s => String.eqb s k
                             | _ => false
                             end) l)
  | VStr s => ret (contains_substring k s)
  | _ => raise (TypeError ("argument of type '" +:+ py_type_name v
                           +:+ "' is not iterable"))
  end.

(** [v[k]] for a string [k]. *)
Definition py_getitem (v : PyVal) (k : string) : Exec X PyVal :=
  match v with
  | VDict d => dict_get d k
  | VList _ => raise (TypeError "list indices must be integers or slices, not str")
  | VStr _ => raise (TypeError "string indices must be integers, not 'str'")
  | _ => raise (TypeError ("'" +:+ py_type_name v +:+ "' object is not subscriptable"))
  end.

(** [v.get(k, dflt)] *)
Definition py_get (v : PyVal) (k : string) (dflt : PyVal) : Exec X PyVal :=
  match v with
  | VDict d => ret (dict_get_default d k dflt)
  | _ => raise (AttributeError ("'" +:+ py_type_name v
                                +:+ "' object has no attribute 'get'"))
  end.

(** The loop of [search_pesticide_info] over the documents, left at the
    first document whose metadata has [phi_days]. *)
Fixpoint first_phi_info (chemical_name : string) (crop : option string)
    (documents : list (gmap string PyVal)) : Exec X (option (gmap string PyVal)) :=
  match documents with
  | [] => ret None
  | doc :: rest =>
      has_phi <- py_contains (dict_get_default doc "metadata" (VDict ∅)) "phi_days" ;;
      if has_phi then
        let crop_value :=
          match crop with
          | Some c => if truthy_str c then VStr c
                      else dict_get_default doc "crop" (VStr "")
          | None => dict_get_default doc "crop" (VStr "")
          end in
        metadata <- dict_get doc "metadata" ;;
        phi_days <- py_getitem metadata "phi_days" ;;
        source <- dict_get doc "source" ;;
        text <- dict_get doc "text" ;;
        ret (Some ({[ "chemical" := VStr chemical_name;
                      "crop" := crop_value;
                      "phi_days" := phi_days;
                      "source" := source;
                      "additional_info" := text ]} : gmap string PyVal))
      else first_phi_info chemical_name crop rest
  end.

Definition pesticide_query (chemical_name : string) (crop : option string) : string :=
  match crop with
  | Some c => if truthy_str c then chemical_name +:+ " " +:+ c else chemical_name
  | None => chemical_name
  end.

Definition pesticide_filters (chemical_name : string) (crop : option string)
  : gmap string PyVal :=
  let filters : gmap string PyVal :=
    {[ "document_type" := VStr "pesticide";
       "chemical" := VStr (str_lower P chemical_name) ]} in
  match crop with
  | Some c => if truthy_str c then <["crop" := VStr (str_lower P c)]> filters
              else filters
  | None => filters
  end.

Definition search_pesticide_info (chemical_name : string) (crop : option string)
  : Exec X (gmap string PyVal) :=
  try_except
    (let query := pesticide_query chemical_name crop in
     let filters := pesticide_filters chemical_name crop in
     documents <- search P B query (Some filters) 3 ;;
     phi_info <- first_phi_info chemical_name crop documents ;;
     match phi_info with
     | Some info =>
         ret ({[ "found" := VBool true;
                 "pesticide_info" := VDict info;
                 "documents" := VList (map VDict documents) ]} : gmap string PyVal)
     | None =>
         ret ({[ "found" := VBool false;
                 "message" := VStr ("No PHI information found for " +:+ chemical_name);
                 "documents" := VList (map VDict documents) ]} : gmap string PyVal)
     end)
    (fun e =>
       logger_error "Pesticide search error: {}" (VStr (exn_str e)) ;;;
       ret ({[ "found" := VBool false;
               "error" := VStr (exn_str e) ]} : gmap string PyVal)).

(** [protection_info[protection_type]]: the key and the list under it.
    The keys of [protection_info] are strings, so a key of another type
    is missing, or cannot be hashed at all; the [repr] of [None], of a
    boolean and of a number is their [str]. *)
Definition group_get (protection_info : gmap string (list (gmap string PyVal)))
    (protection_type : PyVal) : Exec X (string * list (gmap string PyVal)) :=
  match protection_type with
  | VStr key => group <- dict_get protection_info key ;; ret (key, group)
  | VList _ | VDict _ =>
      raise (TypeError ("unhashable type: '" +:+ py_type_name protection_type +:+ "'"))
  | other => raise (KeyError (py_str P other))
  end.

Definition crop_protection_query (crop : string) (problem : option string) : string :=
  match problem with
  | Some p => if truthy_str p then crop +:+ " protection" +:+ " " +:+ p
              else crop +:+ " protection"
  | None => crop +:+ " protection"
  end.

Definition search_crop_protection (crop : string) (problem : option string)
  : Exec X (gmap string PyVal) :=
  try_except
    (let query := crop_protection_query crop problem in
     let filters : gmap string PyVal :=
       {[ "document_type" := VStr "crop_protection";
          "crop" := VStr (str_lower P crop) ]} in
     documents <- search P B query (Some filters) 5 ;;
     let protection_info : gmap string (list (gmap string PyVal)) :=
       {[ "fungicides" := []; "insecticides" := [];
          "herbicides" := []; "general" := [] ]} in
     protection_info <-
       for_each documents
         (fun doc protection_info =>
            let metadata := dict_get_default doc "metadata" (VDict ∅) in
            protection_type <- py_get metadata "protection_type" (VStr "general") ;;
            kg <- group_get protection_info protection_type ;;
            chemical <- py_get metadata "chemical" (VStr "") ;;
            target <- py_get metadata "target_pest" (VStr "") ;;
            dosage <- py_get metadata "dosage" (VStr "") ;;
            timing <- py_get metadata "application_timing" (VStr "") ;;
            text <- dict_get doc "text" ;;
            let entry : gmap string PyVal :=
              {[ "chemical" := chemical; "target" := target; "dosage" := dosage;
                 "timing" := timing; "text" := text ]} in
            ret (<[fst kg := snd kg ++ [entry]]> protection_info))
         protection_info ;;
     ret ((fun group => VList (map VDict group)) <$> protection_info))
    (fun e =>
       logger_error "Crop protection search error: {}" (VStr (exn_str e)) ;;;
       ret ({[ "error" := VStr (exn_str e) ]} : gmap string PyVal)).

End SpecializedSearch.

(** ** Vocabulary of the properties *)

(** The manager a fresh [InformationHierarchyManager()] holds. *)
Definition default_manager : InformationHierarchyManager :=
  mkManager
    [ ("farmer_db",
       InformationSource.mk "farmer_db" "database" "Farmer Database"
                            true true false ∅);
      ("rag_knowledge",
       InformationSource.mk "rag_knowledge" "rag" "Agricultural Knowledge Base"
                            false true true ∅);
      ("external_search",
       InformationSource.mk "external_search" "external" "Web Search (Perplexity)"
                            false false true ∅) ].

(** The capability flag of a source for a tier. *)
Definition capability (tier : InformationRelevance) (source : InformationSource.t)
  : bool :=
  match tier with
  | FARMER_SPECIFIC => InformationSource.can_access_farmer_data source
  | COUNTRY_SPECIFIC => InformationSource.can_access_country_data source
  | GLOBAL => InformationSource.can_access_global_data source
  end.

(** The test a tier loop makes on the context. *)
Definition precondition (tier : InformationRelevance) (query : InformationQuery.t)
  : bool :=
  match tier with
  | FARMER_SPECIFIC =>
      truthy_opt_int (LocalizationContext.farmer_id (InformationQuery.context query))
  | COUNTRY_SPECIFIC =>
      truthy_str (LocalizationContext.country_code (InformationQuery.context query))
  | GLOBAL => true
  end.

(** The test a tier loop makes on the kind of a source. *)
Definition kind_queried (tier : InformationRelevance) (source : InformationSource.t)
  : bool :=
  match tier with
  | FARMER_SPECIFIC => String.eqb (InformationSource.source_type source) "database"
  | COUNTRY_SPECIFIC => String.eqb (InformationSource.source_type source) "rag"
  | GLOBAL => String.eqb (InformationSource.source_type source) "rag"
              || String.eqb (InformationSource.source_type source) "external"
  end.

(** The path condition under which a tier loop reaches its retrieval
    call for a source. *)
Definition queried (tier : InformationRelevance) (query : InformationQuery.t)
    (source : InformationSource.t) : bool :=
  capability tier source && precondition tier query && kind_queried tier source.


(** The retrieval method a tier loop calls and the function of the tier. *)
Definition retrieval_method {X} (R : Retrieval X) (tier : InformationRelevance)
  : InformationQuery.t -> Ext X (list InformationItem.t) :=
  match tier with
  | FARMER_SPECIFIC => _mock_farmer_database_query R
  | COUNTRY_SPECIFIC => _mock_country_rag_query R
  | GLOBAL => _mock_global_query R
  end.

Definition tier_query {X} (R : Retrieval X) (tier : InformationRelevance)
  : InformationHierarchyManager -> InformationQuery.t -> Exec X (list InformationItem.t) :=
  match tier with
  | FARMER_SPECIFIC => _query_farmer_specific R
  | COUNTRY_SPECIFIC => _query_country_specific R
  | GLOBAL => _query_global R
  end.

Definition tier_items (tier : InformationRelevance) (r : InformationResult.t)
  : list InformationItem.t :=
  match tier with
  | FARMER_SPECIFIC => InformationResult.farmer_items r
  | COUNTRY_SPECIFIC => InformationResult.country_items r
  | GLOBAL => InformationResult.global_items r
  end.

Definition tier_name (tier : InformationRelevance) : string :=
  match tier with
  | FARMER_SPECIFIC => "farmer_specific"
  | COUNTRY_SPECIFIC => "country_specific"
  | GLOBAL => "global"
  end.

(** The ids of the sources a trace shows a retrieval for, per tier. *)
Definition invoked (tier : InformationRelevance) (tr : list Event) : list string :=
  flat_map (fun ev => match ev with
                      | Retrieve t source_id =>
                          if relevance_eqb t tier then [source_id] else []
                      | Log _ _ _ => []
                      end) tr.

(** The logged errors of a trace. *)
Definition errors (tr : list Event) : list Event :=
  List.filter (fun ev => match ev with
                    | Log ERROR _ _ => true
                    | _ => false
                    end) tr.

(** [gathered f sel registry x items x']: calling [f] once for each
    selected source of the registry, in registry order and starting from
    the collaborator state [x], returns lists whose concatenation is
    [items] and leaves the state [x']. *)
Inductive gathered {X} (f : Ext X (list InformationItem.t))
    (sel : InformationSource.t -> bool)
  : list (string * InformationSource.t) -> X -> list InformationItem.t -> X -> Prop :=
| gathered_nil x : gathered f sel [] x [] x
| gathered_skip source_id source rest x items x' :
    sel source = false ->
    gathered f sel rest x items x' ->
    gathered f sel ((source_id, source) :: rest) x items x'
| gathered_call source_id source rest x found x1 items x' :
    sel source = true ->
    f x = (Returned found, x1) ->
    gathered f sel rest x1 items x' ->
    gathered f sel ((source_id, source) :: rest) x (found ++ items) x'.

(** A retrieval whose three methods return items of their own tier only,
    and one whose methods never raise. *)
Definition tier_honest {X} (R : Retrieval X) : Prop :=
  forall tier query x found x',
    retrieval_method R tier query x = (Returned found, x') ->
    Forall (fun it => InformationItem.relevance it = tier) found.

Definition never_raises {X} (R : Retrieval X) : Prop :=
  forall tier query x, exists found x',
    retrieval_method R tier query x = (Returned found, x').


(** The outcomes of [add_document] on the documents of a list, one after
    the other, each call starting in the world the previous one left. *)
Fixpoint add_document_outcomes {X} (P : Platform X) (B : Backend X)
    (documents : list (gmap string PyVal)) (w : World X) : list bool :=
  match documents with
  | [] => []
  | doc :: rest =>
      match add_document P B doc w with
      | (Returned ok, w') => ok :: add_document_outcomes P B rest w'
      | (Raised _, _) => []
      end
  end.

Definition count_true (l : list bool) : Z :=
  Z.of_nat (length (List.filter (fun b => b) l)).
Definition count_false (l : list bool) : Z :=
  Z.of_nat (length (List.filter negb l)).

(** [str.lower] on the letters of ASCII. *)
Definition ascii_lower (c : ascii) : ascii :=
  let n := nat_of_ascii c in
  if Nat.leb 65 n && Nat.leb n 90 then ascii_of_nat (n + 32) else c.

Fixpoint ascii_string_lower (s : string) : string :=
  match s with
  | EmptyString => EmptyString
  | String c rest => String (ascii_lower c) (ascii_string_lower rest)
  end.

(** The hash of a number on a 64-bit CPython: the number reduced modulo
    the prime [2^61 - 1], a denominator through its inverse, with the
    sign of the number, and [-2] in place of [-1]. *)
Definition hash_modulus : Z := 2 ^ 61 - 1.

Definition hash_number (q : Q) : Z :=
  let inverse :=
    Pos.iter_op (fun a b => (a * b) mod hash_modulus)
                (Z.to_pos (hash_modulus - 2)) (Z.pos (Qden q) mod hash_modulus) in
  let h := ((Z.abs (Qnum q) mod hash_modulus) * inverse) mod hash_modulus in
  let h := if (Qnum q <? 0)%Z then - h else h in
  if (h =? -1)%Z then -2 else h.

(** A platform and worlds for closed examples: a clock that stands still
    and no collaborator state. [str.lower] is the one of ASCII text. The
    hash of a string, which CPython draws afresh for every run of the
    interpreter, is here its length, and the hash of [None] the constant
    of CPython 3.12; a list or a dict cannot be hashed. [str] is the one
    of strings, integers, booleans and [None], the values the examples
    print. *)
Definition example_platform : Platform unit :=
  mkPlatform unit
    (fun x => ("2024-05-01T12:00:00", x))
    (fun x => ("2024-05-01T12:00:00", x))
    ascii_string_lower
    (fun v => match v with
              | VStr s => Returned (Z.of_nat (String.length s))
              | VBool b => Returned (if b then 1 else 0)
              | VInt z => Returned (hash_number (z # 1))
              | VFloat q => Returned (hash_number q)
              | VNone => Returned 4238894112
              | VList _ | VDict _ =>
                  Raised (TypeError ("unhashable type: '" +:+ py_type_name v +:+ "'"))
              end)
    (fun v => match v with
              | VStr s => s
              | VInt z => pretty z
              | VBool b => if b then "True" else "False"
              | VNone => "None"
              | _ => "?"
              end).

Definition empty_world : World unit := mkWorld tt [].

(** The context and the query of the example at the end of
    [information_hierarchy.py]. *)
Definition example_context : LocalizationContext.t :=
  LocalizationContext.mk "+359123456789" "BG" "Bulgaria" ["bg"]
                         (Some 123) (Some "bg") None None.

Definition example_query : InformationQuery.t :=
  InformationQuery.new "When should I harvest my mangoes?" example_context.

(** The body the three tier loops share, up to the tier they stand for. *)
Definition debug_text (tier : InformationRelevance) : string :=
  match tier with
  | FARMER_SPECIFIC => "Querying farmer data from {}"
  | COUNTRY_SPECIFIC => "Querying country data from {}"
  | GLOBAL => "Querying global data from {}"
  end.

Definition tier_body {X} (R : Retrieval X) (tier : InformationRelevance)
    (query : InformationQuery.t)
  : string * InformationSource.t -> list InformationItem.t
    -> Exec X (list InformationItem.t) :=
  fun '(source_id, source) items =>
    if capability tier source && precondition tier query then
      logger_debug (debug_text tier)
                   (VStr (InformationSource.source_name source)) ;;;
      if kind_queried tier source then
        emit (Retrieve tier source_id) ;;;
        found <- call (retrieval_method R tier query) ;;
        ret (items ++ found)
      else ret items
    else ret items.

(** What [query_information] does for one tier: nothing when the tier is
    not required, the tier function otherwise. *)
Definition tier_run {X} (R : Retrieval X) (self : InformationHierarchyManager)
    (query : InformationQuery.t) (tier : InformationRelevance)
    (w : World X) (items : list InformationItem.t) (w' : World X) : Prop :=
  if py_in tier (InformationQuery.required_relevance_levels query)
  then tier_query R tier self query w = (Returned items, w')
  else items = [] /\ w' = w.

Definition used_name (tier : InformationRelevance) (items : list InformationItem.t)
  : list string :=
  if truthy_list items then [tier_name tier] else [].

(** The ids of the sources of a registry a tier loop queries. *)
Definition queried_ids (tier : InformationRelevance) (query : InformationQuery.t)
    (registry : list (string * InformationSource.t)) : list string :=
  map fst (List.filter (fun p => queried tier query (snd p)) registry).

(** Queries for closed examples: no farmer id, the farmer id 0, a
    negative cap and a cap of 0. *)
Definition anonymous_context : LocalizationContext.t :=
  LocalizationContext.mk "+359123456789" "BG" "Bulgaria" ["bg"]
                         None (Some "bg") None None.

Definition anonymous_query : InformationQuery.t :=
  InformationQuery.new "When should I harvest my mangoes?" anonymous_context.

Definition zero_farmer_context : LocalizationContext.t :=
  LocalizationContext.mk "+359123456789" "BG" "Bulgaria" ["bg"]
                         (Some 0) (Some "bg") None None.

Definition zero_farmer_query : InformationQuery.t :=
  InformationQuery.new "When should I harvest my mangoes?" zero_farmer_context.

Definition negative_cap_query : InformationQuery.t :=
  InformationQuery.mk "When should I harvest my mangoes?" example_context
                      [FARMER_SPECIFIC; COUNTRY_SPECIFIC; GLOBAL] (-1) true.

Definition zero_cap_query : InformationQuery.t :=
  InformationQuery.mk "When should I harvest my mangoes?" example_context
                      [FARMER_SPECIFIC; COUNTRY_SPECIFIC; GLOBAL] 0 true.


Definition leaked_item : InformationItem.t :=
  InformationItem.mk "Farmer 7 grows mangoes on field 3" FARMER_SPECIFIC
                     (Some 7) None None "external" None.

Definition leaking_global_retrieval : Retrieval unit :=
  mkRetrieval unit mock_farmer_database_query mock_country_rag_query
    (fun _ x => (Returned [leaked_item], x)).


(** The candidates of a tier: nothing when the tier is not required, and
    otherwise what the retrieval method returned for the queried sources
    of the registry, concatenated in registry order. *)
Definition candidates_of {X} (R : Retrieval X) (self : InformationHierarchyManager)
    (query : InformationQuery.t) (tier : InformationRelevance)
    (x : X) (items : list InformationItem.t) (x' : X) : Prop :=
  if py_in tier (InformationQuery.required_relevance_levels query)
  then gathered (retrieval_method R tier query) (queried tier query)
                (sources self) x items x'
  else items = [] /\ x' = x.

(** A backend for closed examples: the embedding service refuses
    anything but a non-empty string, the index accepts every vector. *)
Definition example_backend : Backend unit :=
  mkBackend unit
    (fun _ input x =>
       match input with
       | VStr (String _ _) => (Returned [1 # 2; 1 # 4], x)
       | _ => (Raised (RuntimeError "invalid input"), x)
       end)
    (fun _ _ _ x =>
       (Returned [Match.mk "fis_1" (9 # 10)
                    {[ "text" := VStr "Prosaro: 35 days"; "phi_days" := VInt 35 ]}], x))
    (fun _ _ _ x => (Returned tt, x)).

(** Three documents: a well-formed one, one without text and one whose
    crop is not a string. *)
Definition example_documents : list (gmap string PyVal) :=
  [ {[ "text" := VStr "Prosaro in wheat"; "crop" := VStr "Wheat" ]};
    {[ "source" := VStr "fis" ]};
    {[ "text" := VStr "Copper in vines"; "crop" := VInt 7 ]} ].

(** The ids of a registry, in iteration order. *)
Definition registry_ids (self : InformationHierarchyManager) : list string :=
  map fst (sources self).

(** The events a tier loop emits: debug records and retrievals. *)
Definition loop_event (ev : Event) : Prop :=
  match ev with
  | Log DEBUG _ _ => True
  | Retrieve _ _ => True
  | Log _ _ _ => False
  end.

(** The value [_build_filter] and [add_document] store for a key they
    lower-case: nothing for an absent key, the lower-cased string for a
    string; [None] when the value has no [lower]. *)
Definition lowered {X} (P : Platform X) (o : option PyVal) : option (option PyVal) :=
  match o with
  | None => Some None
  | Some (VStr s) => Some (Some (VStr (str_lower P s)))
  | Some _ => None
  end.

(** The filter [search] hands to the index: none for absent or empty
    filters, the filter [_build_filter] returns otherwise. *)
Definition passed_filter {X} (P : Platform X) (filters : option (gmap string PyVal))
    (w : World X) (passed : option (gmap string PyVal)) : Prop :=
  match filters with
  | Some f =>
      if truthy_filters filters
      then exists pf, _build_filter P f w = (Returned pf, w) /\ passed = Some pf
      else passed = None
  | None => passed = None
  end.

(** The [phi_days] of the metadata of a document of [search]. *)
Definition doc_phi_days (doc : gmap string PyVal) : option PyVal :=
  match doc !! "metadata" with
  | Some (VDict md) => md !! "phi_days"
  | _ => None
  end.

(** The four lists of [search_crop_protection], the list a document of
    [search] goes to and the entry it leaves there. *)
Definition protection_groups : list string :=
  ["fungicides"; "insecticides"; "herbicides"; "general"].

Definition doc_metadata (doc : gmap string PyVal) : gmap string PyVal :=
  match doc !! "metadata" with
  | Some (VDict md) => md
  | _ => ∅
  end.

Definition protection_type_of (doc : gmap string PyVal) : PyVal :=
  dict_get_default (doc_metadata doc) "protection_type" (VStr "general").

Definition in_group (group : string) (doc : gmap string PyVal) : bool :=
  match protection_type_of doc with
  | VStr s => String.eqb s group
  | _ => false
  end.

Definition grouped (doc : gmap string PyVal) : bool :=
  existsb (fun g => in_group g doc) protection_groups.

Definition protection_entry (doc : gmap string PyVal) : gmap string PyVal :=
  let md := doc_metadata doc in
  {[ "chemical" := dict_get_default md "chemical" (VStr "");
     "target" := dict_get_default md "target_pest" (VStr "");
     "dosage" := dict_get_default md "dosage" (VStr "");
     "timing" := dict_get_default md "application_timing" (VStr "");
     "text" := dict_get_default doc "text" (VStr "") ]}.

(** The body of the loop of [search_crop_protection], for one document. *)
Definition crop_protection_body {X} (P : Platform X) (doc : gmap string PyVal)
    (protection_info : gmap string (list (gmap string PyVal)))
  : Exec X (gmap string (list (gmap string PyVal))) :=
  let metadata := dict_get_default doc "metadata" (VDict ∅) in
  protection_type <- py_get metadata "protection_type" (VStr "general") ;;
  kg <- group_get P protection_info protection_type ;;
  chemical <- py_get metadata "chemical" (VStr "") ;;
  target <- py_get metadata "target_pest" (VStr "") ;;
  dosage <- py_get metadata "dosage" (VStr "") ;;
  timing <- py_get metadata "application_timing" (VStr "") ;;
  text <- dict_get doc "text" ;;
  let entry : gmap string PyVal :=
    {[ "chemical" := chemical; "target" := target; "dosage" := dosage;
       "timing" := timing; "text" := text ]} in
  ret (<[fst kg := snd kg ++ [entry]]> protection_info).

(** The four empty lists [search_crop_protection] starts from. *)
Definition empty_protection_info : gmap string (list (gmap string PyVal)) :=
  {[ "fungicides" := []; "insecticides" := []; "herbicides" := []; "general" := [] ]}.

(** A backend whose index answers with a fungicide and with a document
    of a kind [search_crop_protection] has no list for. *)
Definition acaricide_backend : Backend unit :=
  mkBackend unit
    (fun _ _ x => (Returned [1 # 2; 1 # 4], x))
    (fun _ _ _ x =>
       (Returned
          [ Match.mk "fis_7" (9 # 10)
              {[ "text" := VStr "Copper against downy mildew";
                 "protection_type" := VStr "fungicides";
                 "chemical" := VStr "copper" ]};
            Match.mk "fis_8" (8 # 10)
              {[ "text" := VStr "Sulphur against mites";
                 "protection_type" := VStr "acaricides" ]} ], x))
    (fun _ _ _ x => (Returned tt, x)).

(** A query for the global tier alone that keeps one item of each
    tier. *)
Definition global_cap_one_query : InformationQuery.t :=
  InformationQuery.mk "When should I harvest my mangoes?" example_context
                      [GLOBAL] 1 true.


(** The id [add_document] stores a document under, given the hash of its
    text, and the metadata it stores with it, given the time of indexing
    and the lower-cased crop and chemical. *)
Definition document_id {X} (P : Platform X) (document : gmap string PyVal) (h : Z)
  : string :=
  py_str P (dict_get_default document "source" (VStr "doc")) +:+ "_" +:+ pretty h.

Definition stored_metadata (document : gmap string PyVal) (text : PyVal)
    (indexed_at : string) (crop chemical : option PyVal) : gmap string PyVal :=
  let metadata : gmap string PyVal :=
    {[ "text" := text;
       "source" := dict_get_default document "source" (VStr "manual");
       "document_type" := dict_get_default document "document_type" (VStr "general");
       "language" := dict_get_default document "language" (VStr "hr");
       "indexed_at" := VStr indexed_at ]} in
  let metadata :=
    match crop with Some low => <["crop" := low]> metadata | None => metadata end in
  let metadata :=
    match chemical with Some low => <["chemical" := low]> metadata | None => metadata end in
  match document !! "phi_days" with
  | Some v => <["phi_days" := v]> metadata
  | None => metadata
  end.

(** [stores P B document x doc_id x']: from the collaborator state [x],
    every step of the body of [add_document] succeeds on the document.
    It has a text, the embedding service embeds it, the clock is read,
    [crop] and [chemical] are strings where present, the text can be
    hashed, and the index accepts the vector and the metadata under
    [doc_id], which leaves the collaborators in [x']. *)
Definition stores {X} (P : Platform X) (B : Backend X) (document : gmap string PyVal)
    (x : X) (doc_id : string) (x' : X) : Prop :=
  exists text vector x1 indexed_at x2 crop chemical h,
    document !! "text" = Some text /\
    embeddings_create B embedding_model text x = (Returned vector, x1) /\
    now_isoformat P x1 = (indexed_at, x2) /\
    lowered P (document !! "crop") = Some crop /\
    lowered P (document !! "chemical") = Some chemical /\
    py_hash P text = Returned h /\
    doc_id = document_id P document h /\
    index_upsert B doc_id vector
      (stored_metadata document text indexed_at crop chemical) x2 = (Returned tt, x').

(** ** Running the monad *)

Ltac exec_unfold :=
  unfold bind, ret, raise, emit, call, lift, try_except, read_clock,
         logger_debug, logger_info, logger_error in *.

Lemma bind_returned {X A B} (m : Exec X A) (k : A -> Exec X B) w a w1 :
  m w = (Returned a, w1) -> bind m k w = k a w1.
Proof. intros H. unfold bind. now rewrite H. Qed.

Lemma bind_raised {X A B} (m : Exec X A) (k : A -> Exec X B) w e w1 :
  m w = (Raised e, w1) -> bind m k w = (Raised e, w1).
Proof. intros H. unfold bind. now rewrite H. Qed.

Lemma bind_inv {X A B} (m : Exec X A) (k : A -> Exec X B) w b w' :
  bind m k w = (Returned b, w') ->
  exists a w1, m w = (Returned a, w1) /\ k a w1 = (Returned b, w').
Proof.
  unfold bind. destruct (m w) as [[a|e] w1]; intros H.
  - now exists a, w1.
  - discriminate.
Qed.

Lemma for_each_ext {X A S} (l : list A) (f g : A -> S -> Exec X S) :
  (forall a s w, f a s w = g a s w) ->
  forall s w, for_each l f s w = for_each l g s w.
Proof.
  intros Hfg. induction l as [|a l IH]; intros s w; simpl; [reflexivity|].
  unfold bind. rewrite Hfg. destruct (g a s w) as [[s'|e] w1]; [apply IH|reflexivity].
Qed.

(** ** The registry *)

Example init_registers_defaults :
  forall (X : Type) (w : World X),
    fst (__init__ w) = Returned default_manager /\
    length (trace (snd (__init__ w))) = (length (trace w) + 3)%nat.
Proof.
  intros X w. split; [reflexivity|].
  unfold __init__, _register_default_sources, register_source. exec_unfold. simpl.
  rewrite !length_app. simpl. lia.
Qed.

(** Registering a source under an id already in use replaces the source
    and keeps its place in the iteration order. *)
Example register_source_overwrites_in_place :
  fst (register_source default_manager
         (InformationSource.mk "farmer_db" "cache" "Farmer Cache" false false true ∅)
         empty_world)
  = Returned
      (mkManager
         [ ("farmer_db",
            InformationSource.mk "farmer_db" "cache" "Farmer Cache" false false true ∅);
           ("rag_knowledge",
            InformationSource.mk "rag_knowledge" "rag" "Agricultural Knowledge Base"
                                 false true true ∅);
           ("external_search",
            InformationSource.mk "external_search" "external" "Web Search (Perplexity)"
                                 false false true ∅) ]).
Proof. reflexivity. Qed.

(** ** The privacy validator *)

Lemma relevance_eqb_eq a b : relevance_eqb a b = true <-> a = b.
Proof. destruct a, b; simpl; split; intros H; try reflexivity; discriminate. Qed.

(** C2. For every item, source and world the validator returns a boolean
    (it never raises); the boolean is [false] exactly when the item is
    farmer-specific and the source lacks the farmer flag, or the item is
    country-specific and the source lacks the country flag; a global item
    is always accepted. An accepted item leaves the world untouched, a
    rejected one adds one error record naming the source. *)
Theorem validate_privacy_compliance_truth_table :
  forall (X : Type) (item : InformationItem.t) (source : InformationSource.t)
         (w : World X),
  exists (b : bool) (w' : World X),
    validate_privacy_compliance item source w = (Returned b, w') /\
    (b = false <->
       (InformationItem.relevance item = FARMER_SPECIFIC /\
        InformationSource.can_access_farmer_data source = false) \/
       (InformationItem.relevance item = COUNTRY_SPECIFIC /\
        InformationSource.can_access_country_data source = false)) /\
    (InformationItem.relevance item = GLOBAL -> b = true) /\
    (b = true -> w' = w) /\
    (b = false ->
       collab w' = collab w /\
       exists text,
         trace w' = trace w
                    ++ [Log ERROR text (VStr (InformationSource.source_name source))]).
Proof.
  intros X item source w. unfold validate_privacy_compliance.
  destruct (InformationItem.relevance item) eqn:Hrel;
    destruct (InformationSource.can_access_farmer_data source) eqn:Hf;
    destruct (InformationSource.can_access_country_data source) eqn:Hc;
    simpl; exec_unfold; simpl;
    eexists; eexists; (split; [reflexivity|]);
    repeat split; try congruence; try tauto;
    try (intros [[? ?]|[? ?]]; congruence);
    try (intros _; eexists; reflexivity);
    try (intros _; left; split; reflexivity);
    try (intros _; right; split; reflexivity);
    try (eexists; reflexivity).
Qed.

(** ** The tier loops *)

Lemma tier_query_unfold {X} (R : Retrieval X) tier self query w :
  tier_query R tier self query w
  = for_each (sources self) (tier_body R tier query) [] w.
Proof.
  destruct tier; simpl;
    [ unfold _query_farmer_specific
    | unfold _query_country_specific
    | unfold _query_global ];
    apply for_each_ext; intros [source_id source] items w0; simpl;
    rewrite ?andb_true_r; reflexivity.
Qed.

Lemma invoked_app tier tr1 tr2 :
  invoked tier (tr1 ++ tr2) = invoked tier tr1 ++ invoked tier tr2.
Proof. unfold invoked. apply flat_map_app. Qed.

Lemma errors_app tr1 tr2 : errors (tr1 ++ tr2) = errors tr1 ++ errors tr2.
Proof. unfold errors. apply List.filter_app. Qed.

Lemma relevance_eqb_refl t : relevance_eqb t t = true.
Proof. now destruct t. Qed.

(** A loop that returns has gathered its items from the queried sources,
    in registry order, and its trace shows a retrieval for exactly them. *)
Lemma tier_loop_returned {X} (R : Retrieval X) tier query srcs :
  forall items0 w items w',
    for_each srcs (tier_body R tier query) items0 w = (Returned items, w') ->
    exists more,
      items = items0 ++ more /\
      gathered (retrieval_method R tier query) (queried tier query) srcs
               (collab w) more (collab w') /\
      (forall t, invoked t (trace w')
                 = invoked t (trace w)
                   ++ (if relevance_eqb tier t then queried_ids tier query srcs else [])) /\
      errors (trace w') = errors (trace w).
Proof.
  induction srcs as [|[source_id source] rest IH]; intros items0 w items w' Hrun.
  - simpl in Hrun. injection Hrun as <- <-. exists []. rewrite app_nil_r.
    repeat split; [constructor|].
    intros t. unfold queried_ids. simpl. destruct (relevance_eqb tier t); now rewrite app_nil_r.
  - simpl in Hrun. apply bind_inv in Hrun as (items1 & w1 & Hbody & Hrest).
    apply IH in Hrest as (more & -> & Hg & Hinv & Herr).
    unfold queried_ids, queried in *. simpl.
    destruct (capability tier source && precondition tier query) eqn:Hguard; simpl.
    + destruct (kind_queried tier source) eqn:Hkind; simpl.
      * exec_unfold. simpl in Hbody.
        destruct (retrieval_method R tier query (collab w)) as [[found|e] x1] eqn:Hcall;
          [|discriminate].
        injection Hbody as <- <-. simpl in *.
        exists (found ++ more). rewrite app_assoc. split; [reflexivity|].
        split; [|split].
        -- eapply gathered_call; eauto. unfold queried. now rewrite Hguard, Hkind.
        -- intros t. rewrite Hinv, !invoked_app. simpl.
           destruct (relevance_eqb tier t); simpl; now rewrite <- ?app_assoc, ?app_nil_r.
        -- rewrite Herr, !errors_app. simpl. now rewrite !app_nil_r.
      * exec_unfold. injection Hbody as <- <-. simpl in *.
        exists more. split; [reflexivity|]. split; [|split].
        -- apply gathered_skip; [|assumption]. unfold queried. now rewrite Hguard, Hkind.
        -- intros t. rewrite Hinv, invoked_app. simpl. now rewrite app_nil_r.
        -- rewrite Herr, errors_app. simpl. now rewrite app_nil_r.
    + exec_unfold. injection Hbody as <- <-.
      exists more. split; [reflexivity|]. split; [|split].
      * apply gathered_skip; [|assumption]. unfold queried. now rewrite Hguard.
      * assumption.
      * assumption.
Qed.

(** With retrieval methods that never raise, a loop returns. *)
Lemma tier_loop_total {X} (R : Retrieval X) tier query srcs :
  never_raises R ->
  forall items0 w, exists items w',
    for_each srcs (tier_body R tier query) items0 w = (Returned items, w').
Proof.
  intros HR. induction srcs as [|[source_id source] rest IH]; intros items0 w.
  - simpl. now exists items0, w.
  - simpl.
    assert (Hbody : exists items1 w1,
               tier_body R tier query (source_id, source) items0 w = (Returned items1, w1)).
    { unfold tier_body.
      destruct (capability tier source && precondition tier query);
        [destruct (kind_queried tier source)|]; exec_unfold; simpl.
      - destruct (HR tier query (collab w)) as (found & x1 & ->). eauto.
      - eauto.
      - eauto. }
    destruct Hbody as (items1 & w1 & Hbody).
    destruct (IH items1 w1) as (items & w' & Hrest).
    exists items, w'. erewrite bind_returned; eauto.
Qed.

(** When the precondition of the tier fails, the loop does nothing. *)
Lemma tier_loop_precondition {X} (R : Retrieval X) tier query srcs :
  precondition tier query = false ->
  forall items0 w,
    for_each srcs (tier_body R tier query) items0 w = (Returned items0, w).
Proof.
  intros Hpre. induction srcs as [|[source_id source] rest IH]; intros items0 w.
  - reflexivity.
  - simpl. erewrite bind_returned; [apply IH|].
    unfold tier_body. now rewrite Hpre, andb_false_r.
Qed.

Lemma gathered_In {X} (f : Ext X (list InformationItem.t)) sel srcs x items x' :
  gathered f sel srcs x items x' ->
  forall it, In it items ->
    exists source_id source x0 found x1,
      In (source_id, source) srcs /\ sel source = true /\
      f x0 = (Returned found, x1) /\ In it found.
Proof.
  induction 1 as [x|sid s rest x items x' Hsel Hg IH
                  |sid s rest x found x1 items x' Hsel Hf Hg IH]; intros it Hin.
  - destruct Hin.
  - destruct (IH it Hin) as (sid' & s' & x0 & found & x1 & Hs & ?).
    exists sid', s', x0, found, x1. split; [now right|assumption].
  - apply in_app_or in Hin as [Hin|Hin].
    + exists sid, s, x, found, x1. repeat split; auto. now left.
    + destruct (IH it Hin) as (sid' & s' & x0 & found' & x2 & Hs & ?).
      exists sid', s', x0, found', x2. split; [now right|assumption].
Qed.

Lemma mock_never_raises {X} : never_raises (@mock_retrieval X).
Proof. intros tier query x. destruct tier; simpl; eauto. Qed.

Lemma mock_tier_honest {X} : tier_honest (@mock_retrieval X).
Proof.
  intros tier query x found x' H.
  destruct tier; simpl in H; injection H as <- <-; repeat constructor.
Qed.

(** ** [query_information] *)

Section QueryInformation.
Context {X : Type} (P : Platform X) (R : Retrieval X).
Context (self : InformationHierarchyManager) (query : InformationQuery.t).

Let cap := InformationQuery.max_items_per_level query.

Lemma py_slice_to_nil {A} n : @py_slice_to A [] n = [].
Proof. unfold py_slice_to. destruct (0 <=? n)%Z; apply firstn_nil. Qed.

Lemma tier_step_inv tier
    (set : InformationResult.t -> list InformationItem.t -> InformationResult.t)
    (result : InformationResult.t) (used : list string) w st w1 :
  set result [] = result ->
  (if py_in tier (InformationQuery.required_relevance_levels query)
   then (items <- tier_query R tier self query ;;
         ret (set result (py_slice_to items cap),
              if truthy_list items then used ++ [tier_name tier] else used))
   else ret (result, used)) w = (Returned st, w1) ->
  exists items,
    tier_run R self query tier w items w1 /\
    st = (set result (py_slice_to items cap), used ++ used_name tier items).
Proof.
  intros Hset. unfold tier_run, used_name.
  destruct (py_in tier (InformationQuery.required_relevance_levels query)).
  - intros H. apply bind_inv in H as (items & w0 & Hq & Hret).
    unfold ret in Hret. injection Hret as <- <-.
    exists items. split; [assumption|].
    destruct items; simpl; now rewrite ?app_nil_r.
  - unfold ret. intros H. injection H as <- <-.
    exists []. simpl. now rewrite app_nil_r, py_slice_to_nil, Hset.
Qed.

(** What a returned result holds, in terms of the candidates of the
    three tiers. *)
Lemma query_information_inv w r w' :
  query_information P R self query w = (Returned r, w') ->
  exists fi ci gi w1 w2 w3,
    tier_run R self query FARMER_SPECIFIC w fi w1 /\
    tier_run R self query COUNTRY_SPECIFIC w1 ci w2 /\
    tier_run R self query GLOBAL w2 gi w3 /\
    InformationResult.query r = query /\
    InformationResult.farmer_items r = py_slice_to fi cap /\
    InformationResult.country_items r = py_slice_to ci cap /\
    InformationResult.global_items r = py_slice_to gi cap /\
    InformationResult.metadata r !! "sources_used"
    = Some (VList (map VStr (used_name FARMER_SPECIFIC fi
                             ++ used_name COUNTRY_SPECIFIC ci
                             ++ used_name GLOBAL gi))) /\
    InformationResult.metadata r !! "context_hash"
    = Some (VStr (_hash_context (InformationQuery.context query))) /\
    InformationResult.metadata r !! "total_items"
    = Some (VInt (Z.of_nat (length (InformationResult.get_all_items_by_priority r)))) /\
    (forall t, invoked t (trace w') = invoked t (trace w3)) /\
    errors (trace w') = errors (trace w3).
Proof.
  unfold query_information. intros H.
  apply bind_inv in H as ([r1 u1] & w1 & H1 & H).
  apply (tier_step_inv FARMER_SPECIFIC InformationResult.set_farmer_items) in H1
    as (fi & Hf & E1); [|reflexivity].
  injection E1 as -> ->.
  apply bind_inv in H as ([r2 u2] & w2 & H2 & H).
  apply (tier_step_inv COUNTRY_SPECIFIC InformationResult.set_country_items) in H2
    as (ci & Hc & E2); [|reflexivity].
  injection E2 as -> ->.
  apply bind_inv in H as ([r3 u3] & w3 & H3 & H).
  apply (tier_step_inv GLOBAL InformationResult.set_global_items) in H3
    as (gi & Hg & E3); [|reflexivity].
  injection E3 as -> ->.
  exists fi, ci, gi, w1, w2, w3.
  do 3 (split; [assumption|]).
  unfold _log_query in H. exec_unfold.
  destruct (utcnow_isoformat P (collab w3)) as [ts x4] eqn:Hclock1. simpl in H.
  destruct (utcnow_isoformat P x4) as [ts2 x5] eqn:Hclock2. simpl in H.
  injection H as <- <-. simpl.
  do 4 (split; [reflexivity|]).
  split; [|split; [|split; [|split]]].
  - rewrite lookup_insert_ne by discriminate. rewrite lookup_insert_eq.
    now rewrite <- app_assoc.
  - rewrite !lookup_insert_ne by discriminate.
    now rewrite lookup_singleton_eq.
  - rewrite !lookup_insert_ne by discriminate.
    now rewrite lookup_insert_eq.
  - intros t. rewrite invoked_app. simpl. now rewrite app_nil_r.
  - rewrite errors_app. simpl. now rewrite app_nil_r.
Qed.

(** A query returns as soon as its three tiers do. *)
Lemma query_information_returns w fi ci gi w1 w2 w3 :
  tier_run R self query FARMER_SPECIFIC w fi w1 ->
  tier_run R self query COUNTRY_SPECIFIC w1 ci w2 ->
  tier_run R self query GLOBAL w2 gi w3 ->
  exists r w', query_information P R self query w = (Returned r, w').
Proof.
  unfold tier_run, query_information. intros Hf Hc Hg.
  unfold _log_query.
  destruct (py_in FARMER_SPECIFIC _);
    [simpl in Hf; erewrite (bind_returned (bind _ _));
                  [|erewrite bind_returned; [reflexivity|exact Hf]]
    | destruct Hf as [_ ->]; erewrite (bind_returned (ret _)); [|reflexivity] ];
  (destruct (py_in COUNTRY_SPECIFIC _);
    [simpl in Hc; erewrite (bind_returned (bind _ _));
                  [|erewrite bind_returned; [reflexivity|exact Hc]]
    | destruct Hc as [_ ->]; erewrite (bind_returned (ret _)); [|reflexivity] ]);
  (destruct (py_in GLOBAL _);
    [simpl in Hg; erewrite (bind_returned (bind _ _));
                  [|erewrite bind_returned; [reflexivity|exact Hg]]
    | destruct Hg as [_ ->]; erewrite (bind_returned (ret _)); [|reflexivity] ]);
  exec_unfold;
  destruct (utcnow_isoformat P (collab _)) as [ts x4]; simpl;
  destruct (utcnow_isoformat P x4) as [ts2 x5]; simpl;
  eauto.
Qed.

End QueryInformation.

Lemma tier_run_total {X} (R : Retrieval X) self query tier :
  never_raises R ->
  forall w, exists items w', tier_run R self query tier w items w'.
Proof.
  intros HR w. unfold tier_run.
  destruct (py_in tier _).
  - destruct (tier_loop_total R tier query (sources self) HR [] w) as (items & w' & H).
    exists items, w'. now rewrite tier_query_unfold.
  - now exists [], w.
Qed.

Lemma tier_run_precondition {X} (R : Retrieval X) self query tier w items w' :
  precondition tier query = false ->
  tier_run R self query tier w items w' -> items = [] /\ w' = w.
Proof.
  intros Hpre. unfold tier_run. destruct (py_in tier _); [|tauto].
  rewrite tier_query_unfold, (tier_loop_precondition R tier query _ Hpre).
  intros H. injection H as <- <-. now split.
Qed.

Lemma tier_run_gathered {X} (R : Retrieval X) self query tier w items w' :
  tier_run R self query tier w items w' ->
  (if py_in tier (InformationQuery.required_relevance_levels query)
   then gathered (retrieval_method R tier query) (queried tier query)
                 (sources self) (collab w) items (collab w')
   else items = [] /\ w' = w) /\
  (forall t, invoked t (trace w')
             = invoked t (trace w)
               ++ (if py_in tier (InformationQuery.required_relevance_levels query)
                      && relevance_eqb tier t
                   then queried_ids tier query (sources self) else [])) /\
  errors (trace w') = errors (trace w).
Proof.
  unfold tier_run. destruct (py_in tier _); simpl.
  - rewrite tier_query_unfold. intros H.
    apply tier_loop_returned in H as (more & -> & Hg & Hinv & Herr). simpl. auto.
  - intros [-> ->]. repeat split; trivial. intros t. now rewrite app_nil_r.
Qed.

Lemma query_information_total {X} (P : Platform X) (R : Retrieval X) self query :
  never_raises R ->
  forall w, exists r w', query_information P R self query w = (Returned r, w').
Proof.
  intros HR w.
  destruct (tier_run_total R self query FARMER_SPECIFIC HR w) as (fi & w1 & Hf).
  destruct (tier_run_total R self query COUNTRY_SPECIFIC HR w1) as (ci & w2 & Hc).
  destruct (tier_run_total R self query GLOBAL HR w2) as (gi & w3 & Hg).
  eapply query_information_returns; eauto.
Qed.

(** ** The farmer precondition *)

Lemma farmer_tier_skipped {X} (P : Platform X) (R : Retrieval X) self query w :
  precondition FARMER_SPECIFIC query = false ->
  _query_farmer_specific R self query w = (Returned [], w) /\
  (forall r w',
      query_information P R self query w = (Returned r, w') ->
      InformationResult.farmer_items r = []) /\
  (exists r w',
      query_information P mock_retrieval self query w = (Returned r, w') /\
      InformationResult.farmer_items r = []).
Proof.
  intros Hpre.
  assert (Hall : forall (R0 : Retrieval X) r w',
             query_information P R0 self query w = (Returned r, w') ->
             InformationResult.farmer_items r = []).
  { intros R0 r w' H.
    apply query_information_inv in H
      as (fi & ci & gi & w1 & w2 & w3 & Hf & _ & _ & _ & -> & _).
    apply (tier_run_precondition R0 self query FARMER_SPECIFIC) in Hf as [-> _];
      [apply py_slice_to_nil|assumption]. }
  split; [|split].
  - change (tier_query R FARMER_SPECIFIC self query w = (Returned [], w)).
    rewrite tier_query_unfold. now apply tier_loop_precondition.
  - apply Hall.
  - destruct (query_information_total P mock_retrieval self query mock_never_raises w)
      as (r & w' & H).
    exists r, w'. split; [assumption|]. eapply Hall; eauto.
Qed.

(** C5. When [context.farmer_id] is [None], the farmer tier returns the
    empty list without touching the world, whatever sources are registered
    and whatever the retrieval methods would do; every result
    [query_information] returns has an empty [farmer_items]; and with the
    placeholder retrievals of the class [query_information] does return
    such a result (a normal result, no exception). *)
Theorem farmer_items_empty_without_farmer_id :
  forall (X : Type) (P : Platform X) (R : Retrieval X)
         (self : InformationHierarchyManager) (query : InformationQuery.t)
         (w : World X),
    LocalizationContext.farmer_id (InformationQuery.context query) = None ->
    _query_farmer_specific R self query w = (Returned [], w) /\
    (forall r w',
        query_information P R self query w = (Returned r, w') ->
        InformationResult.farmer_items r = []) /\
    (exists r w',
        query_information P mock_retrieval self query w = (Returned r, w') /\
        InformationResult.farmer_items r = []).
Proof.
  intros X P R self query w Hnone. apply farmer_tier_skipped.
  simpl. now rewrite Hnone.
Qed.

(** C9. A [context.farmer_id] equal to 0 is falsy, so it is treated as an
    absent one: the farmer tier returns the empty list without touching
    the world even when farmer-capable sources are registered, every
    returned result has an empty [farmer_items], and with the placeholder
    retrievals a result is returned. *)
Theorem farmer_items_empty_for_farmer_id_zero :
  forall (X : Type) (P : Platform X) (R : Retrieval X)
         (self : InformationHierarchyManager) (query : InformationQuery.t)
         (w : World X),
    LocalizationContext.farmer_id (InformationQuery.context query) = Some 0 ->
    _query_farmer_specific R self query w = (Returned [], w) /\
    (forall r w',
        query_information P R self query w = (Returned r, w') ->
        InformationResult.farmer_items r = []) /\
    (exists r w',
        query_information P mock_retrieval self query w = (Returned r, w') /\
        InformationResult.farmer_items r = []).
Proof.
  intros X P R self query w Hzero. apply farmer_tier_skipped.
  simpl. now rewrite Hzero.
Qed.

Lemma farmer_items_empty_without_farmer_id_witness :
  LocalizationContext.farmer_id (InformationQuery.context anonymous_query) = None /\
  (_query_farmer_specific mock_retrieval default_manager anonymous_query empty_world
   = (Returned [], empty_world) /\
   (forall r w',
       query_information example_platform mock_retrieval default_manager
                         anonymous_query empty_world = (Returned r, w') ->
       InformationResult.farmer_items r = []) /\
   (exists r w',
       query_information example_platform mock_retrieval default_manager
                         anonymous_query empty_world = (Returned r, w') /\
       InformationResult.farmer_items r = [])).
Proof.
  split; [reflexivity|].
  apply (farmer_items_empty_without_farmer_id unit example_platform mock_retrieval
           default_manager anonymous_query empty_world).
  reflexivity.
Defined.

Lemma farmer_items_empty_for_farmer_id_zero_witness :
  LocalizationContext.farmer_id (InformationQuery.context zero_farmer_query) = Some 0 /\
  (_query_farmer_specific mock_retrieval default_manager zero_farmer_query empty_world
   = (Returned [], empty_world) /\
   (forall r w',
       query_information example_platform mock_retrieval default_manager
                         zero_farmer_query empty_world = (Returned r, w') ->
       InformationResult.farmer_items r = []) /\
   (exists r w',
       query_information example_platform mock_retrieval default_manager
                         zero_farmer_query empty_world = (Returned r, w') /\
       InformationResult.farmer_items r = [])).
Proof.
  split; [reflexivity|].
  apply (farmer_items_empty_for_farmer_id_zero unit example_platform mock_retrieval
           default_manager zero_farmer_query empty_world).
  reflexivity.
Defined.

(** ** The context fingerprint *)







(** The model of SHA-256 on the test vectors of FIPS 180-4. *)
Example sha256_abc :
  Sha256.hexdigest "abc"
  = "ba7816bf8f01cfea414140de5dae2223b00361a396177a9cb410ff61f20015ad".
Proof. vm_compute. reflexivity. Qed.

Example sha256_two_blocks :
  Sha256.hexdigest "abcdbcdecdefdefgefghfghighijhijkijkljklmklmnlmnomnopnopq"
  = "248d6a61d20638b8e5c026930c3e6039a33ce45964ff2167f6ecedd419db06c1".
Proof. vm_compute. reflexivity. Qed.

Example hash_context_example : _hash_context example_context = "cc4d390252136c5a".
Proof. vm_compute. reflexivity. Qed.



(** ** The bulk indexer *)

Lemma try_except_returns {X A} (body : Exec X A) (handler : Exn -> Exec X A) w :
  (forall e w0, exists a w1, handler e w0 = (Returned a, w1)) ->
  exists a w1, try_except body handler w = (Returned a, w1).
Proof.
  intros Hh. unfold try_except.
  destruct (body w) as [[a|e] w1]; [now exists a, w1|apply Hh].
Qed.

(** [add_document] answers with a boolean, whatever the document holds
    and whatever the embedding service and the index do. *)
Lemma add_document_returns {X} (P : Platform X) (B : Backend X) document w :
  exists ok w', add_document P B document w = (Returned ok, w').
Proof.
  unfold add_document. apply try_except_returns.
  intros e w0. exec_unfold. eauto.
Qed.

Lemma add_document_outcomes_length {X} (P : Platform X) (B : Backend X) documents :
  forall w, length (add_document_outcomes P B documents w) = length documents.
Proof.
  induction documents as [|doc rest IH]; intros w; simpl; [reflexivity|].
  destruct (add_document_returns P B doc w) as (ok & w' & ->).
  simpl. now rewrite IH.
Qed.

Lemma count_true_false (l : list bool) :
  count_true l + count_false l = Z.of_nat (length l).
Proof.
  unfold count_true, count_false.
  induction l as [|[|] l IH]; simpl in *; lia.
Qed.

Lemma bulk_loop {X} (P : Platform X) (B : Backend X) documents :
  forall (stats : gmap string Z) n s f w,
    stats !! "total" = Some n ->
    stats !! "success" = Some s ->
    stats !! "failed" = Some f ->
    exists stats' w',
      for_each documents
        (fun doc stats =>
           success <- add_document P B doc ;;
           if success then dict_incr stats "success"
           else dict_incr stats "failed")
        stats w = (Returned stats', w') /\
      stats' !! "total" = Some n /\
      stats' !! "success"
      = Some (s + count_true (add_document_outcomes P B documents w)) /\
      stats' !! "failed"
      = Some (f + count_false (add_document_outcomes P B documents w)).
Proof.
  induction documents as [|doc rest IH]; intros stats n s f w Ht Hs Hf.
  - exists stats, w. simpl. unfold count_true, count_false. simpl.
    rewrite !Z.add_0_r. auto.
  - simpl. destruct (add_document_returns P B doc w) as (ok & w1 & Hadd).
    rewrite Hadd.
    assert (Hstep :
              bind (add_document P B doc)
                   (fun success => if success then dict_incr stats "success"
                                   else dict_incr stats "failed") w
              = (Returned (if ok then <["success" := s + 1]> stats
                           else <["failed" := f + 1]> stats), w1)).
    { erewrite bind_returned by exact Hadd.
      destruct ok; unfold dict_incr, dict_get; [rewrite Hs|rewrite Hf]; reflexivity. }
    erewrite bind_returned by exact Hstep.
    destruct ok.
    + destruct (IH (<["success" := s + 1]> stats) n (s + 1) f w1)
        as (stats' & w' & Hrun & Ht' & Hs' & Hf').
      * now rewrite lookup_insert_ne.
      * now rewrite lookup_insert_eq.
      * now rewrite lookup_insert_ne.
      * exists stats', w'. split; [exact Hrun|]. split; [exact Ht'|].
        rewrite Hs', Hf'. unfold count_true, count_false. simpl.
        split; f_equal; lia.
    + destruct (IH (<["failed" := f + 1]> stats) n s (f + 1) w1)
        as (stats' & w' & Hrun & Ht' & Hs' & Hf').
      * now rewrite lookup_insert_ne.
      * now rewrite lookup_insert_ne.
      * now rewrite lookup_insert_eq.
      * exists stats', w'. split; [exact Hrun|]. split; [exact Ht'|].
        rewrite Hs', Hf'. unfold count_true, count_false. simpl.
        split; f_equal; lia.
Qed.

(** What the lower-casing steps of [add_document] and [_build_filter]
    leave in the map, in both directions. *)
Lemma lower_step {X} (P : Platform X) (o : option PyVal) (md : gmap string PyVal)
    (key : string) (w : World X) r w1 :
  (match o with
   | Some v => low <- py_lower P v ;; ret (<[key := low]> md)
   | None => ret md
   end) w = (Returned r, w1) ->
  exists c, lowered P o = Some c /\ w1 = w /\
            r = match c with
                | Some low => <[key := low]> md
                | None => md
                end.
Proof.
  destruct o as [v|]; simpl.
  - destruct v; unfold py_lower; exec_unfold; intros H; try discriminate.
    injection H as <- <-. eexists. split; [reflexivity|]. now split.
  - unfold ret. intros H. injection H as <- <-. exists None. now split.
Qed.

Lemma lower_step_returns {X} (P : Platform X) (o : option PyVal)
    (md : gmap string PyVal) (key : string) (w : World X) c :
  lowered P o = Some c ->
  (match o with
   | Some v => low <- py_lower P v ;; ret (<[key := low]> md)
   | None => ret md
   end) w
  = (Returned (match c with
               | Some low => <[key := low]> md
               | None => md
               end), w).
Proof.
  destruct o as [v|]; simpl.
  - destruct v; try discriminate. intros H. injection H as <-. reflexivity.
  - intros H. injection H as <-. reflexivity.
Qed.

(** [add_document] answers [True] when every step of its body succeeds. *)
Lemma add_document_stored {X} (P : Platform X) (B : Backend X)
    (document : gmap string PyVal) (w : World X)
    text vector x1 indexed_at x2 crop chemical h x3 :
  document !! "text" = Some text ->
  embeddings_create B embedding_model text (collab w) = (Returned vector, x1) ->
  now_isoformat P x1 = (indexed_at, x2) ->
  lowered P (document !! "crop") = Some crop ->
  lowered P (document !! "chemical") = Some chemical ->
  py_hash P text = Returned h ->
  index_upsert B (document_id P document h) vector
    (stored_metadata document text indexed_at crop chemical) x2 = (Returned tt, x3) ->
  add_document P B document w
  = (Returned true,
     mkWorld x3
       (trace w
        ++ [Log INFO "Added document {} to knowledge base"
              (VStr (document_id P document h))])).
Proof.
  intros Htext Hemb Hnow Hcrop Hchem Hhash Hupsert.
  unfold add_document, try_except.
  assert (Hget : forall w0 : World X, dict_get document "text" w0 = (Returned text, w0)).
  { intros w0. unfold dict_get. now rewrite Htext. }
  erewrite bind_returned by apply Hget.
  erewrite bind_returned;
    [|unfold _get_embedding, try_except, call; rewrite Hemb; reflexivity].
  erewrite bind_returned by apply Hget.
  erewrite bind_returned; [|unfold read_clock; simpl; rewrite Hnow; reflexivity].
  erewrite bind_returned by (apply lower_step_returns; exact Hcrop).
  erewrite bind_returned by (apply lower_step_returns; exact Hchem).
  erewrite bind_returned by apply Hget.
  erewrite bind_returned; [|unfold lift; rewrite Hhash; reflexivity].
  unfold document_id, stored_metadata in Hupsert.
  erewrite bind_returned; [|unfold call; simpl; rewrite Hupsert; reflexivity].
  reflexivity.
Qed.

(** What an answer of [add_document] tells: [True] comes after every
    step of the body has succeeded, [False] after one of them has raised
    and the error has been logged. *)
Lemma add_document_inv {X} (P : Platform X) (B : Backend X)
    (document : gmap string PyVal) (w : World X) ok w' :
  add_document P B document w = (Returned ok, w') ->
  (ok = true /\
   exists text vector x1 indexed_at x2 crop chemical h x3,
     document !! "text" = Some text /\
     embeddings_create B embedding_model text (collab w) = (Returned vector, x1) /\
     now_isoformat P x1 = (indexed_at, x2) /\
     lowered P (document !! "crop") = Some crop /\
     lowered P (document !! "chemical") = Some chemical /\
     py_hash P text = Returned h /\
     index_upsert B (document_id P document h) vector
       (stored_metadata document text indexed_at crop chemical) x2
     = (Returned tt, x3) /\
     w' = mkWorld x3
            (trace w
             ++ [Log INFO "Added document {} to knowledge base"
                   (VStr (document_id P document h))])) \/
  (ok = false /\
   exists e w0,
     w' = mkWorld (collab w0)
            (trace w0 ++ [Log ERROR "Error adding document: {}" (VStr (exn_str e))])).
Proof.
  intros Hrun.
  unfold add_document, try_except in Hrun.
  match type of Hrun with
  | (match ?body w with _ => _ end) = _ => destruct (body w) as [[ok'|e] wb] eqn:Hbody
  end.
  2:{ right. exec_unfold. injection Hrun as <- <-. split; [reflexivity|].
      now exists e, wb. }
  left. injection Hrun as -> ->.
  apply bind_inv in Hbody as (text & w1 & Htext & Hbody).
  unfold dict_get in Htext. destruct (document !! "text") as [t|] eqn:Et;
    [|discriminate]. unfold ret in Htext. injection Htext as <- <-.
  apply bind_inv in Hbody as (vector & w2 & Hemb & Hbody).
  unfold _get_embedding, try_except, call in Hemb.
  destruct (embeddings_create B embedding_model t (collab w)) as [[v|e] x1] eqn:Ecall;
    [|exec_unfold; discriminate].
  injection Hemb as <- <-.
  apply bind_inv in Hbody as (text2 & w3 & Htext2 & Hbody).
  unfold dict_get in Htext2. rewrite Et in Htext2. unfold ret in Htext2.
  injection Htext2 as <- <-.
  apply bind_inv in Hbody as (indexed_at & w4 & Hclock & Hbody).
  unfold read_clock in Hclock. simpl in Hclock.
  destruct (now_isoformat P x1) as [ts x2] eqn:Enow. injection Hclock as <- <-.
  apply bind_inv in Hbody as (md1 & w5 & Hcrop & Hbody).
  apply lower_step in Hcrop as (crop & Ecrop & -> & ->).
  apply bind_inv in Hbody as (md2 & w6 & Hchem & Hbody).
  apply lower_step in Hchem as (chemical & Echem & -> & ->).
  apply bind_inv in Hbody as (text3 & w7 & Htext3 & Hbody).
  unfold dict_get in Htext3. rewrite Et in Htext3. unfold ret in Htext3.
  injection Htext3 as <- <-.
  apply bind_inv in Hbody as (h & w8 & Hhash & Hbody).
  unfold lift in Hhash. injection Hhash as Hhash <-.
  apply bind_inv in Hbody as ([] & w9 & Hupsert & Hbody).
  unfold call in Hupsert. simpl in Hupsert.
  match type of Hupsert with
  | (let (_, _) := ?c in _) = _ => destruct c as [[[]|e] x3] eqn:Eupsert
  end; [|discriminate].
  injection Hupsert as <-.
  exec_unfold. simpl in Hbody. injection Hbody as <- <-.
  split; [reflexivity|].
  exists t, v, x1, ts, x2, crop, chemical, h, x3.
  do 6 (split; [assumption || reflexivity|]).
  split; [exact Eupsert|reflexivity].
Qed.

Example bulk_index_example :
  exists stats w',
    bulk_index_fis_documents example_platform example_backend example_documents
                             empty_world = (Returned stats, w') /\
    stats !! "total" = Some 3 /\
    stats !! "success" = Some 1 /\
    stats !! "failed" = Some 2 /\
    errors (trace w')
    = [ Log ERROR "Error adding document: {}" (VStr "'text'");
        Log ERROR "Error adding document: {}"
            (VStr "'int' object has no attribute 'lower'") ].
Proof.
  eexists. eexists. split; [vm_compute; reflexivity|].
  repeat split; vm_compute; reflexivity.
Qed.

(** C10. For every list of documents, every platform, every behaviour of
    the embedding service and of the index and every world,
    [bulk_index_fis_documents] returns a stats map whose [total] is the
    length of the list, whose [success] is the number of documents for
    which [add_document] returned [True] and whose [failed] is the number
    for which it returned [False], so [success + failed = total].
    [add_document] itself always returns a boolean, never raises. It
    returns [True] exactly when every step of its body succeeded: the
    document has a text, the embedding service embedded it, [crop] and
    [chemical] are strings where present, the text could be hashed and
    the index accepted the vector and the metadata; one info record then
    names the id. It returns [False] exactly when one of these steps
    fails, and the last thing it does then is to log the error. *)
Theorem bulk_index_fis_documents_stats :
  forall (X : Type) (P : Platform X) (B : Backend X)
         (documents : list (gmap string PyVal)) (w : World X),
  exists (stats : gmap string Z) (w' : World X) (success failed : Z),
    bulk_index_fis_documents P B documents w = (Returned stats, w') /\
    stats !! "total" = Some (Z.of_nat (length documents)) /\
    stats !! "success" = Some success /\
    stats !! "failed" = Some failed /\
    success + failed = Z.of_nat (length documents) /\
    success = count_true (add_document_outcomes P B documents w) /\
    failed = count_false (add_document_outcomes P B documents w) /\
    length (add_document_outcomes P B documents w) = length documents /\
    (forall document w0, exists ok w1,
        add_document P B document w0 = (Returned ok, w1)) /\
    (forall document w0 w1,
        add_document P B document w0 = (Returned true, w1) <->
        exists doc_id x',
          stores P B document (collab w0) doc_id x' /\
          w1 = mkWorld x'
                 (trace w0
                  ++ [Log INFO "Added document {} to knowledge base" (VStr doc_id)])) /\
    (forall document w0,
        (exists w1, add_document P B document w0 = (Returned false, w1)) <->
        (forall doc_id x', ~ stores P B document (collab w0) doc_id x')) /\
    (forall document w0 w1,
        add_document P B document w0 = (Returned false, w1) ->
        exists e tr,
          trace w1
          = tr ++ [Log ERROR "Error adding document: {}" (VStr (exn_str e))]).
Proof.
  intros X P B documents w. unfold bulk_index_fis_documents.
  assert (Htrue : forall document w0 w1,
             add_document P B document w0 = (Returned true, w1) <->
             exists doc_id x',
               stores P B document (collab w0) doc_id x' /\
               w1 = mkWorld x'
                      (trace w0
                       ++ [Log INFO "Added document {} to knowledge base"
                             (VStr doc_id)])).
  { intros document w0 w1. split.
    - intros Hrun. apply add_document_inv in Hrun as [[_ Hs]|[Hf _]]; [|discriminate].
      destruct Hs as (text & vector & x1 & ts & x2 & crop & chemical & h & x3
                      & H1 & H2 & H3 & H4 & H5 & H6 & H7 & ->).
      exists (document_id P document h), x3. split; [|reflexivity].
      exists text, vector, x1, ts, x2, crop, chemical, h. auto 10.
    - intros (doc_id & x' & Hs & ->).
      destruct Hs as (text & vector & x1 & ts & x2 & crop & chemical & h
                      & H1 & H2 & H3 & H4 & H5 & H6 & -> & H7).
      eapply add_document_stored; eassumption. }
  destruct (bulk_loop P B documents
              {[ "total" := Z.of_nat (length documents); "success" := 0; "failed" := 0 ]}
              (Z.of_nat (length documents)) 0 0 w)
    as (stats & w1 & Hrun & Ht & Hs & Hf).
  - apply lookup_insert_eq.
  - rewrite lookup_insert_ne by discriminate. apply lookup_insert_eq.
  - rewrite !lookup_insert_ne by discriminate. apply lookup_singleton_eq.
  - eexists stats, _, _, _.
    split; [erewrite bind_returned; [|exact Hrun]; exec_unfold; reflexivity|].
    split; [exact Ht|]. split; [exact Hs|]. split; [exact Hf|].
    rewrite !Z.add_0_l.
    split; [rewrite count_true_false; now rewrite add_document_outcomes_length|].
    split; [reflexivity|]. split; [reflexivity|].
    split; [apply add_document_outcomes_length|].
    split; [intros document w0; apply add_document_returns|].
    split; [exact Htrue|]. split.
    + intros document w0. split.
      * intros (w2 & Hfalse) doc_id x' Hstores.
        assert (Hyes : add_document P B document w0
                       = (Returned true,
                          mkWorld x'
                            (trace w0
                             ++ [Log INFO "Added document {} to knowledge base"
                                   (VStr doc_id)])))
          by (apply Htrue; eauto).
        rewrite Hfalse in Hyes. discriminate.
      * intros Hnone.
        destruct (add_document_returns P B document w0) as ([|] & w2 & Hadd);
          [|eauto].
        apply Htrue in Hadd as (doc_id & x' & Hstores & _).
        now destruct (Hnone doc_id x').
    + intros document w0 w2 Hfalse.
      apply add_document_inv in Hfalse as [[Hyes _]|[_ (e & w3 & ->)]];
        [discriminate|].
      exists e, (trace w3). reflexivity.
Qed.

(** ** Failures of the collaborators *)


(** [search] answers with a list, whatever its collaborators do. *)
Lemma search_returns {X} (P : Platform X) (B : Backend X) text filters top_k w :
  exists documents w', search P B text filters top_k w = (Returned documents, w').
Proof.
  unfold search. apply try_except_returns.
  intros e w0. exec_unfold. eauto.
Qed.




(** A tier loop returns as soon as the retrieval calls it makes do. *)
Lemma tier_loop_gathered {X} (R : Retrieval X) tier query srcs x items x' :
  gathered (retrieval_method R tier query) (queried tier query) srcs x items x' ->
  forall items0 (w : World X), collab w = x ->
    exists w',
      for_each srcs (tier_body R tier query) items0 w = (Returned (items0 ++ items), w') /\
      collab w' = x'.
Proof.
  induction 1 as [x|sid s rest x items x' Hsel Hg IH
                  |sid s rest x found x1 items x' Hsel Hf Hg IH]; intros items0 w Hw.
  - exists w. simpl. now rewrite app_nil_r.
  - assert (Hbody : exists w1,
               tier_body R tier query (sid, s) items0 w = (Returned items0, w1) /\
               collab w1 = x).
    { unfold tier_body, queried in *.
      destruct (capability tier s && precondition tier query); simpl in Hsel;
        [rewrite Hsel|]; exec_unfold; eauto. }
    destruct Hbody as (w1 & Hbody & Hw1).
    destruct (IH items0 w1 Hw1) as (w' & Hrest & Hw').
    exists w'. split; [|exact Hw']. simpl.
    erewrite bind_returned by exact Hbody. exact Hrest.
  - assert (Hbody : exists w1,
               tier_body R tier query (sid, s) items0 w
               = (Returned (items0 ++ found), w1) /\ collab w1 = x1).
    { unfold tier_body, queried in *.
      apply andb_prop in Hsel as [-> ->].
      exec_unfold. simpl. rewrite Hw, Hf. eauto. }
    destruct Hbody as (w1 & Hbody & Hw1).
    destruct (IH (items0 ++ found) w1 Hw1) as (w' & Hrest & Hw').
    exists w'. split; [|exact Hw']. simpl.
    erewrite bind_returned by exact Hbody. now rewrite app_assoc.
Qed.

Lemma candidates_tier_run {X} (R : Retrieval X) self query tier x items x' (w : World X) :
  candidates_of R self query tier x items x' ->
  collab w = x ->
  exists w', tier_run R self query tier w items w' /\ collab w' = x'.
Proof.
  unfold candidates_of, tier_run. intros Hc Hw.
  destruct (py_in tier _).
  - destruct (tier_loop_gathered R tier query _ _ _ _ Hc [] w Hw) as (w' & Hrun & Hw').
    exists w'. split; [|exact Hw']. now rewrite tier_query_unfold.
  - destruct Hc as [-> ->]. now exists w.
Qed.


Section QueryInformationFailures.
Context {X : Type} (P : Platform X) (R : Retrieval X).
Context (self : InformationHierarchyManager) (query : InformationQuery.t).

Let cap := InformationQuery.max_items_per_level query.





End QueryInformationFailures.

Lemma lookup_Some_nonempty {V} (f : gmap string V) k v : f !! k = Some v -> f <> ∅.
Proof. intros H ->. now rewrite lookup_empty in H. Qed.






(** ** Which sources a tier queries *)





(** ** The cap on a tier *)

Lemma py_slice_to_nonneg {A} (l : list A) n :
  0 <= n -> py_slice_to l n = firstn (Z.to_nat n) l.
Proof.
  intros Hn. unfold py_slice_to.
  destruct (0 <=? n)%Z eqn:E; [reflexivity|]. apply Z.leb_gt in E. lia.
Qed.

Lemma tier_run_candidates {X} (R : Retrieval X) self query tier w items w' :
  tier_run R self query tier w items w' ->
  candidates_of R self query tier (collab w) items (collab w').
Proof.
  intros H. apply tier_run_gathered in H as (H & _). unfold candidates_of.
  destruct (py_in tier _); [assumption|]. destruct H as [-> ->]. now split.
Qed.

(** C6, as the code has it. For every query whose [max_items_per_level]
    is not negative, each of the three tier lists of a returned result
    has at most [max_items_per_level] items: it is the first
    [max_items_per_level] items of the candidates of its tier, which are
    the lists the retrieval method returned for the sources the tier loop
    queries, concatenated in registry order (the tiers run one after the
    other on the collaborators, farmer first). *)
Theorem tier_lists_capped :
  forall (X : Type) (P : Platform X) (R : Retrieval X)
         (self : InformationHierarchyManager) (query : InformationQuery.t)
         (w : World X) (r : InformationResult.t) (w' : World X),
    0 <= InformationQuery.max_items_per_level query ->
    query_information P R self query w = (Returned r, w') ->
    (forall tier,
        Z.of_nat (length (tier_items tier r))
        <= InformationQuery.max_items_per_level query) /\
    exists fi ci gi x1 x2 x3,
      candidates_of R self query FARMER_SPECIFIC (collab w) fi x1 /\
      candidates_of R self query COUNTRY_SPECIFIC x1 ci x2 /\
      candidates_of R self query GLOBAL x2 gi x3 /\
      InformationResult.farmer_items r
      = firstn (Z.to_nat (InformationQuery.max_items_per_level query)) fi /\
      InformationResult.country_items r
      = firstn (Z.to_nat (InformationQuery.max_items_per_level query)) ci /\
      InformationResult.global_items r
      = firstn (Z.to_nat (InformationQuery.max_items_per_level query)) gi.
Proof.
  intros X P R self query w r w' Hcap Hrun.
  apply query_information_inv in Hrun
    as (fi & ci & gi & w1 & w2 & w3 & Hf & Hc & Hg & _ & Ef & Ec & Eg & _).
  rewrite py_slice_to_nonneg in Ef, Ec, Eg by assumption.
  split.
  - intros tier. destruct tier; simpl; rewrite ?Ef, ?Ec, ?Eg, length_firstn; lia.
  - exists fi, ci, gi, (collab w1), (collab w2), (collab w3).
    repeat split; try assumption; now apply tier_run_candidates.
Qed.

Lemma tier_lists_capped_witness :
  0 <= InformationQuery.max_items_per_level global_cap_one_query /\
  exists r w' gi,
    query_information example_platform mock_retrieval default_manager
                      global_cap_one_query empty_world = (Returned r, w') /\
    (forall tier, Z.of_nat (length (tier_items tier r)) <= 1) /\
    candidates_of mock_retrieval default_manager global_cap_one_query GLOBAL tt gi tt /\
    length gi = 2%nat /\
    InformationResult.global_items r = firstn 1 gi /\
    length (InformationResult.global_items r) = 1%nat.
Proof.
  split; [vm_compute; discriminate|].
  destruct (query_information example_platform mock_retrieval default_manager
                              global_cap_one_query empty_world) as [[r|e] w'] eqn:Hrun;
    [|vm_compute in Hrun; discriminate Hrun].
  destruct (tier_lists_capped unit example_platform mock_retrieval default_manager
              global_cap_one_query empty_world r w') as (Hcap & Hcut);
    [vm_compute; discriminate|exact Hrun|].
  destruct Hcut as (fi & ci & gi & x1 & [] & [] & _ & _ & Hg & _ & _ & Eg).
  exists r, w', gi. split; [reflexivity|]. split; [exact Hcap|].
  split; [exact Hg|].
  destruct (candidates_tier_run mock_retrieval default_manager global_cap_one_query
              GLOBAL tt gi tt empty_world Hg eq_refl) as (w1 & Hloop & _).
  unfold tier_run in Hloop.
  change (py_in GLOBAL (InformationQuery.required_relevance_levels global_cap_one_query))
    with true in Hloop.
  vm_compute in Hloop. injection Hloop as <- _.
  split; [reflexivity|]. split; [exact Eg|].
  rewrite Eg. reflexivity.
Defined.

(** With a cap of -1 the global list of the example query keeps one of
    its two candidates: one item, more than the cap. *)
Lemma tier_lists_capped_counterexample :
  exists r w',
    query_information example_platform mock_retrieval default_manager
                      negative_cap_query empty_world = (Returned r, w') /\
    InformationQuery.max_items_per_level negative_cap_query = -1 /\
    length (InformationResult.global_items r) = 1%nat /\
    InformationQuery.max_items_per_level negative_cap_query
    < Z.of_nat (length (InformationResult.global_items r)).
Proof. eexists. eexists. split; [vm_compute; reflexivity|]. repeat split. Qed.

(** ** The tiers recorded as used *)

Lemma firstn_nonempty {A} (l : list A) n :
  (1 <= n)%nat -> firstn n l <> [] <-> l <> [].
Proof.
  intros Hn. destruct n as [|n]; [lia|]. destruct l; simpl; split; congruence.
Qed.

Lemma used_name_In tier t items :
  In (tier_name t) (used_name tier items) <-> t = tier /\ items <> [].
Proof.
  unfold used_name. destruct items as [|it items]; simpl.
  - split; [tauto|]. intros [_ H]. now apply H.
  - split.
    + intros [H|[]]. split; [|discriminate]. destruct t, tier; simpl in H; congruence.
    + intros [-> _]. now left.
Qed.

(** C7, as the code has it. The [sources_used] list of the metadata of a
    returned result holds the name of a tier exactly when the tier was
    required and its loop produced at least one candidate, before the
    candidates are cut to [max_items_per_level]; when
    [max_items_per_level] is at least 1 this is exactly when the list of
    the tier in the result has at least one item. *)
Theorem sources_used_lists_producing_tiers :
  forall (X : Type) (P : Platform X) (R : Retrieval X)
         (self : InformationHierarchyManager) (query : InformationQuery.t)
         (w : World X) (r : InformationResult.t) (w' : World X),
    query_information P R self query w = (Returned r, w') ->
    exists (used : list string) (candidates : InformationRelevance -> list InformationItem.t)
           w1 w2 w3,
      InformationResult.metadata r !! "sources_used" = Some (VList (map VStr used)) /\
      tier_run R self query FARMER_SPECIFIC w (candidates FARMER_SPECIFIC) w1 /\
      tier_run R self query COUNTRY_SPECIFIC w1 (candidates COUNTRY_SPECIFIC) w2 /\
      tier_run R self query GLOBAL w2 (candidates GLOBAL) w3 /\
      (forall tier,
          tier_items tier r
          = py_slice_to (candidates tier) (InformationQuery.max_items_per_level query)) /\
      (forall tier,
          In (tier_name tier) used <->
          py_in tier (InformationQuery.required_relevance_levels query) = true /\
          candidates tier <> []) /\
      (1 <= InformationQuery.max_items_per_level query ->
       forall tier, In (tier_name tier) used <-> tier_items tier r <> []).
Proof.
  intros X P R self query w r w' Hrun.
  apply query_information_inv in Hrun
    as (fi & ci & gi & w1 & w2 & w3 & Hf & Hc & Hg & _ & Ef & Ec & Eg & Hused & _).
  set (candidates := fun tier => match tier with
                                 | FARMER_SPECIFIC => fi
                                 | COUNTRY_SPECIFIC => ci
                                 | GLOBAL => gi
                                 end).
  assert (Hreq : forall tier, candidates tier <> [] ->
                   py_in tier (InformationQuery.required_relevance_levels query) = true).
  { intros tier Hne. pose proof Hf as Hf'. pose proof Hc as Hc'. pose proof Hg as Hg'.
    unfold tier_run in Hf', Hc', Hg'.
    destruct tier; simpl in Hne;
      [ destruct (py_in FARMER_SPECIFIC _); [reflexivity|destruct Hf' as [E _]]
      | destruct (py_in COUNTRY_SPECIFIC _); [reflexivity|destruct Hc' as [E _]]
      | destruct (py_in GLOBAL _); [reflexivity|destruct Hg' as [E _]] ];
      now rewrite E in Hne. }
  assert (Hin : forall tier,
             In (tier_name tier)
                (used_name FARMER_SPECIFIC fi ++ used_name COUNTRY_SPECIFIC ci
                 ++ used_name GLOBAL gi) <-> candidates tier <> []).
  { intros tier. rewrite !in_app_iff, !used_name_In.
    destruct tier; simpl; split; intros H;
      repeat match goal with
             | H : _ \/ _ |- _ => destruct H
             | H : _ /\ _ |- _ => destruct H
             end; try congruence; auto 6. }
  exists (used_name FARMER_SPECIFIC fi ++ used_name COUNTRY_SPECIFIC ci
          ++ used_name GLOBAL gi), candidates, w1, w2, w3.
  split; [exact Hused|]. do 3 (split; [assumption|]).
  split; [intros tier; destruct tier; assumption|].
  split.
  - intros tier. rewrite Hin. split; [intros H; split; auto|tauto].
  - intros Hcap tier. rewrite Hin.
    assert (Htier : tier_items tier r
                    = firstn (Z.to_nat (InformationQuery.max_items_per_level query))
                             (candidates tier)).
    { rewrite <- py_slice_to_nonneg by lia. destruct tier; assumption. }
    rewrite Htier. symmetry. apply firstn_nonempty. lia.
Qed.

Lemma sources_used_lists_producing_tiers_witness :
  exists r w',
    query_information example_platform mock_retrieval default_manager
                      anonymous_query empty_world = (Returned r, w') /\
    InformationResult.metadata r !! "sources_used"
    = Some (VList [VStr "country_specific"; VStr "global"]) /\
    InformationResult.farmer_items r = [] /\
    InformationResult.country_items r <> [] /\
    InformationResult.global_items r <> [].
Proof.
  destruct (query_information example_platform mock_retrieval default_manager
                              anonymous_query empty_world) as [[r|e] w'] eqn:Hrun.
  - exists r, w'. split; [reflexivity|].
    destruct (sources_used_lists_producing_tiers unit example_platform mock_retrieval
                default_manager anonymous_query empty_world r w' Hrun)
      as (used & candidates & w1 & w2 & w3 & Hused & _ & _ & _ & _ & _ & Hiff).
    specialize (Hiff ltac:(vm_compute; discriminate)).
    vm_compute in Hrun. injection Hrun as <- <-.
    split; [vm_compute; reflexivity|].
    split; [reflexivity|]. split; discriminate.
  - vm_compute in Hrun. discriminate Hrun.
Defined.

(** With a cap of 0 the three lists of the example query are empty, and
    [sources_used] names the three tiers all the same. *)
Lemma sources_used_counterexample :
  exists r w',
    query_information example_platform mock_retrieval default_manager
                      zero_cap_query empty_world = (Returned r, w') /\
    InformationResult.metadata r !! "sources_used"
    = Some (VList [VStr "farmer_specific"; VStr "country_specific"; VStr "global"]) /\
    InformationResult.farmer_items r = [] /\
    InformationResult.country_items r = [] /\
    InformationResult.global_items r = [].
Proof.
  eexists. eexists. split; [vm_compute; reflexivity|].
  split; [vm_compute; reflexivity|]. repeat split.
Qed.

(** ** The privacy invariant *)

Lemma validate_accepts_own_tier {X} (item : InformationItem.t)
    (source : InformationSource.t) (w : World X) :
  capability (InformationItem.relevance item) source = true ->
  validate_privacy_compliance item source w = (Returned true, w).
Proof.
  unfold validate_privacy_compliance, capability.
  destruct (InformationItem.relevance item); simpl; intros H; rewrite ?H; reflexivity.
Qed.

(** C1, as the code has it. Every item of a tier list of a returned
    result was returned by the retrieval method of that tier in a call
    made for a registered source that has the capability flag of the tier
    (and passes the tier's tests on the context and on [source_type]).
    When the retrieval methods return items of their own tier only, as
    the placeholders of the class do, the relevance of the item is the
    tier of its list, so it is authorized by the flags of that source and
    [validate_privacy_compliance] accepts the pair. [query_information]
    itself never calls the validator: it logs no error. *)
Theorem tier_items_come_from_capable_sources :
  forall (X : Type) (P : Platform X) (R : Retrieval X)
         (self : InformationHierarchyManager) (query : InformationQuery.t)
         (w : World X) (r : InformationResult.t) (w' : World X),
    query_information P R self query w = (Returned r, w') ->
    (forall tier item,
        In item (tier_items tier r) ->
        exists source_id source x0 found x1,
          In (source_id, source) (sources self) /\
          capability tier source = true /\
          precondition tier query = true /\
          kind_queried tier source = true /\
          retrieval_method R tier query x0 = (Returned found, x1) /\
          In item found /\
          (tier_honest R ->
           InformationItem.relevance item = tier /\
           forall w0 : World X,
             validate_privacy_compliance item source w0 = (Returned true, w0))) /\
    errors (trace w') = errors (trace w).
Proof.
  intros X P R self query w r w' Hrun.
  apply query_information_inv in Hrun
    as (fi & ci & gi & w1 & w2 & w3 & Hf & Hc & Hg & _ & Ef & Ec & Eg & _ & _ & _ & _ & Herr).
  assert (Hsub : forall {A} (l : list A) n x, In x (py_slice_to l n) -> In x l).
  { intros A l n x. unfold py_slice_to.
    destruct (0 <=? n)%Z; intros H;
      match type of H with In _ (firstn ?k _) =>
        rewrite <- (firstn_skipn k l); apply in_or_app; now left end. }
  assert (Hsrc : forall tier w0 items w1',
             tier_run R self query tier w0 items w1' ->
             forall item, In item items ->
               exists source_id source x0 found x1,
                 In (source_id, source) (sources self) /\
                 capability tier source = true /\
                 precondition tier query = true /\
                 kind_queried tier source = true /\
                 retrieval_method R tier query x0 = (Returned found, x1) /\
                 In item found /\
                 (tier_honest R ->
                  InformationItem.relevance item = tier /\
                  forall w0 : World X,
                    validate_privacy_compliance item source w0 = (Returned true, w0))).
  { intros tier w0 items w1' Hrun item Hin.
    apply tier_run_gathered in Hrun as (Hg' & _).
    destruct (py_in tier _); [|destruct Hg' as [-> _]; destruct Hin].
    destruct (gathered_In _ _ _ _ _ _ Hg' item Hin)
      as (source_id & source & x0 & found & x1 & Hs & Hq & Hcall & Hfound).
    unfold queried in Hq. apply andb_prop in Hq as [Hq Hk].
    apply andb_prop in Hq as [Hcap Hpre].
    exists source_id, source, x0, found, x1.
    do 6 (split; [assumption|]).
    intros Hhonest.
    assert (Hrel : InformationItem.relevance item = tier).
    { apply (proj1 (List.Forall_forall _ _) (Hhonest tier query x0 found x1 Hcall)).
      assumption. }
    split; [assumption|].
    intros w2'. apply validate_accepts_own_tier. now rewrite Hrel. }
  split.
  - intros tier item Hin.
    destruct tier; simpl in Hin; rewrite ?Ef, ?Ec, ?Eg in Hin; apply Hsub in Hin;
      eapply Hsrc; eauto.
  - apply tier_run_gathered in Hf as (_ & _ & Hf).
    apply tier_run_gathered in Hc as (_ & _ & Hc).
    apply tier_run_gathered in Hg as (_ & _ & Hg).
    congruence.
Qed.

Lemma tier_items_come_from_capable_sources_witness :
  tier_honest (@mock_retrieval unit) /\
  exists r w',
    query_information example_platform mock_retrieval default_manager
                      example_query empty_world = (Returned r, w') /\
    forall tier item,
      In item (tier_items tier r) ->
      exists source_id source,
        In (source_id, source) (sources default_manager) /\
        capability tier source = true /\
        InformationItem.relevance item = tier /\
        validate_privacy_compliance item source empty_world
        = (Returned true, empty_world).
Proof.
  split; [apply mock_tier_honest|].
  destruct (query_information example_platform mock_retrieval default_manager
                              example_query empty_world) as [[r|e] w'] eqn:Hrun.
  - exists r, w'. split; [reflexivity|].
    intros tier item Hin.
    destruct (tier_items_come_from_capable_sources unit example_platform
                mock_retrieval default_manager example_query empty_world r w' Hrun)
      as (Hitems & _).
    destruct (Hitems tier item Hin)
      as (source_id & source & x0 & found & x1 & Hs & Hcap & _ & _ & _ & _ & Hhonest).
    destruct (Hhonest mock_tier_honest) as (Hrel & Hval).
    exists source_id, source. auto.
  - vm_compute in Hrun. discriminate Hrun.
Defined.

(** With a global retrieval that hands back an item tagged
    farmer-specific, the item ends in [global_items]: the global tier
    asked [rag_knowledge] and [external_search], neither has the farmer
    flag, the validator would reject the item for both, and no error is
    logged. *)
Lemma privacy_invariant_counterexample :
  exists r w',
    query_information example_platform leaking_global_retrieval default_manager
                      example_query empty_world = (Returned r, w') /\
    In leaked_item (InformationResult.global_items r) /\
    InformationItem.relevance leaked_item = FARMER_SPECIFIC /\
    invoked GLOBAL (trace w') = ["rag_knowledge"; "external_search"] /\
    (forall source_id source,
        In (source_id, source) (sources default_manager) ->
        In source_id ["rag_knowledge"; "external_search"] ->
        InformationSource.can_access_farmer_data source = false /\
        fst (validate_privacy_compliance leaked_item source empty_world)
        = Returned false) /\
    errors (trace w') = [].
Proof.
  eexists. eexists. split; [vm_compute; reflexivity|].
  split; [now left|]. split; [reflexivity|]. split; [reflexivity|].
  split; [|reflexivity].
  intros source_id source Hin Hq. simpl in Hin.
  destruct Hin as [E|[E|[E|[]]]]; injection E as <- <-.
  - simpl in Hq. destruct Hq as [E|[E|[]]]; discriminate E.
  - split; reflexivity.
  - split; reflexivity.
Qed.

(** ** More on the registry *)

Lemma dict_lookup_set_eq {V} k (v : V) d : dict_lookup k (dict_set k v d) = Some v.
Proof.
  induction d as [|[k' v'] d IH]; simpl.
  - now rewrite String.eqb_refl.
  - destruct (String.eqb k' k) eqn:E; simpl; [now rewrite String.eqb_refl|].
    now rewrite E.
Qed.

Lemma dict_lookup_set_ne {V} k k0 (v : V) d :
  k0 <> k -> dict_lookup k0 (dict_set k v d) = dict_lookup k0 d.
Proof.
  intros Hne. induction d as [|[k' v'] d IH]; simpl.
  - destruct (String.eqb k k0) eqn:E; [apply String.eqb_eq in E; congruence|reflexivity].
  - destruct (String.eqb k' k) eqn:E; simpl.
    + apply String.eqb_eq in E. subst k'.
      destruct (String.eqb k k0) eqn:E'; [apply String.eqb_eq in E'; congruence|reflexivity].
    + destruct (String.eqb k' k0); [reflexivity|apply IH].
Qed.

Lemma dict_lookup_In {V} k (d : list (string * V)) :
  In k (map fst d) <-> dict_lookup k d <> None.
Proof.
  induction d as [|[k' v'] d IH]; simpl; [tauto|].
  destruct (String.eqb k' k) eqn:E.
  - apply String.eqb_eq in E. split; [discriminate|auto].
  - apply String.eqb_neq in E. rewrite <- IH. tauto.
Qed.

Lemma dict_set_keys {V} k (v : V) d :
  map fst (dict_set k v d)
  = match dict_lookup k d with
    | Some _ => map fst d
    | None => map fst d ++ [k]
    end.
Proof.
  induction d as [|[k' v'] d IH]; simpl; [reflexivity|].
  destruct (String.eqb k' k) eqn:E; simpl.
  - apply String.eqb_eq in E. now subst.
  - rewrite IH. now destruct (dict_lookup k d).
Qed.

Lemma dict_set_NoDup {V} k (v : V) d :
  NoDup (map fst d) -> NoDup (map fst (dict_set k v d)).
Proof.
  intros Hnd. rewrite dict_set_keys.
  destruct (dict_lookup k d) eqn:E; [assumption|].
  apply NoDup_app. split; [assumption|]. split; [|apply NoDup_singleton].
  intros x Hx Hk. apply list_elem_of_In in Hx. apply list_elem_of_In in Hk.
  destruct Hk as [<-|[]].
  apply dict_lookup_In in Hx. congruence.
Qed.

Lemma dict_set_Forall {V} (Q : string * V -> Prop) k (v : V) d :
  Q (k, v) -> List.Forall Q d -> List.Forall Q (dict_set k v d).
Proof.
  intros Hk Hd. induction Hd as [|[k' v'] d Hx Hd IH]; simpl.
  - repeat constructor. assumption.
  - destruct (String.eqb k' k); constructor; assumption.
Qed.

(** X1. [register_source] always returns. Afterwards the registry gives
    the source under its id and every other id what it gave before; an id
    already in use keeps its place in the iteration order, a new one goes
    to the end; the ids stay without repetition and every source stays
    filed under its own id; one info record naming the source is
    logged and the collaborators are left alone. *)
Theorem register_source_updates_registry :
  forall (X : Type) (self : InformationHierarchyManager)
         (source : InformationSource.t) (w : World X),
  exists self' : InformationHierarchyManager,
    register_source self source w
    = (Returned self',
       mkWorld (collab w)
         (trace w ++ [Log INFO "Registered information source: {}"
                          (VStr (InformationSource.source_name source))])) /\
    dict_lookup (InformationSource.source_id source) (sources self') = Some source /\
    (forall k, k <> InformationSource.source_id source ->
               dict_lookup k (sources self') = dict_lookup k (sources self)) /\
    registry_ids self'
    = match dict_lookup (InformationSource.source_id source) (sources self) with
      | Some _ => registry_ids self
      | None => registry_ids self ++ [InformationSource.source_id source]
      end /\
    (NoDup (registry_ids self) -> NoDup (registry_ids self')) /\
    (List.Forall (fun p => fst p = InformationSource.source_id (snd p)) (sources self) ->
     List.Forall (fun p => fst p = InformationSource.source_id (snd p)) (sources self')).
Proof.
  intros X self source w. eexists. split; [reflexivity|]. simpl.
  split; [apply dict_lookup_set_eq|].
  split; [intros k Hk; now apply dict_lookup_set_ne|].
  unfold registry_ids. simpl.
  split; [apply dict_set_keys|].
  split; [apply dict_set_NoDup|].
  apply dict_set_Forall. reflexivity.
Qed.

Lemma register_source_updates_registry_witness :
  NoDup (registry_ids default_manager) /\
  List.Forall (fun p => fst p = InformationSource.source_id (snd p))
              (sources default_manager) /\
  exists self',
    fst (register_source default_manager
           (InformationSource.mk "farmer_db" "cache" "Farmer Cache" false false true ∅)
           empty_world) = Returned self' /\
    registry_ids self' = ["farmer_db"; "rag_knowledge"; "external_search"] /\
    NoDup (registry_ids self').
Proof.
  assert (Hnd : NoDup (registry_ids default_manager)).
  { apply NoDup_ListNoDup. repeat constructor; simpl; intuition discriminate. }
  split; [exact Hnd|]. split; [repeat constructor|].
  destruct (register_source_updates_registry unit default_manager
              (InformationSource.mk "farmer_db" "cache" "Farmer Cache" false false true ∅)
              empty_world) as (self' & Hrun & _ & _ & Hids & Hkeep & _).
  exists self'. split; [now rewrite Hrun|]. split; [exact Hids|]. exact (Hkeep Hnd).
Defined.

Lemma dict_set_fresh {V} k (v : V) d :
  dict_lookup k d = None -> dict_set k v d = d ++ [(k, v)].
Proof.
  induction d as [|[k' v'] d IH]; simpl; [reflexivity|].
  destruct (String.eqb k' k); [discriminate|]. intros H. now rewrite IH.
Qed.

Lemma fold_dict_set_fresh {A V} (f : A -> V) (l : list (string * A)) :
  forall acc,
    NoDup (map fst acc ++ map fst l) ->
    fold_left (fun acc '(k, a) => dict_set k (f a) acc) l acc
    = acc ++ map (fun p => (fst p, f (snd p))) l.
Proof.
  induction l as [|[k a] l IH]; intros acc Hnd; simpl.
  - now rewrite app_nil_r.
  - assert (Hfresh : dict_lookup k acc = None).
    { destruct (dict_lookup k acc) eqn:E; [|reflexivity]. exfalso.
      apply NoDup_app in Hnd as (_ & Hdisj & _).
      apply (Hdisj k).
      - apply list_elem_of_In, dict_lookup_In. congruence.
      - simpl. left. }
    rewrite (dict_set_fresh _ _ _ Hfresh), IH.
    + now rewrite <- app_assoc.
    + rewrite map_app. simpl. rewrite <- app_assoc. exact Hnd.
Qed.

Lemma dict_lookup_map {A V} (f : A -> V) k (l : list (string * A)) :
  dict_lookup k (map (fun p => (fst p, f (snd p))) l) = f <$> dict_lookup k l.
Proof.
  induction l as [|[k' a] l IH]; simpl; [reflexivity|].
  destruct (String.eqb k' k); [reflexivity|apply IH].
Qed.

(** X2. On a registry without repeated ids (as every registry built by
    [register_source] is), [get_source_capabilities] lists the sources in
    registry order, each id with the three flags and the kind of its
    source, and it follows a registration: the id just registered shows
    the flags of the new source, every other id is as before. *)
Theorem get_source_capabilities_reflects_registry :
  forall (X : Type) (self : InformationHierarchyManager)
         (source : InformationSource.t) (w : World X),
    NoDup (registry_ids self) ->
    get_source_capabilities self
    = map (fun p => (fst p, source_capabilities (snd p))) (sources self) /\
    (forall k, dict_lookup k (get_source_capabilities self)
               = source_capabilities <$> dict_lookup k (sources self)) /\
    exists self' w',
      register_source self source w = (Returned self', w') /\
      dict_lookup (InformationSource.source_id source) (get_source_capabilities self')
      = Some (source_capabilities source) /\
      (forall k, k <> InformationSource.source_id source ->
                 dict_lookup k (get_source_capabilities self')
                 = dict_lookup k (get_source_capabilities self)).
Proof.
  intros X self source w Hnd.
  assert (Hmap : forall m, NoDup (registry_ids m) ->
             get_source_capabilities m
             = map (fun p => (fst p, source_capabilities (snd p))) (sources m)).
  { intros m Hm. unfold get_source_capabilities.
    now rewrite (fold_dict_set_fresh source_capabilities (sources m) []). }
  split; [now apply Hmap|].
  split; [intros k; rewrite Hmap by assumption; apply dict_lookup_map|].
  destruct (register_source_updates_registry X self source w)
    as (self' & Hrun & Hnew & Hold & _ & Hkeep & _).
  eexists self', _. split; [exact Hrun|].
  rewrite !Hmap by auto.
  split.
  - now rewrite dict_lookup_map, Hnew.
  - intros k Hk. now rewrite !dict_lookup_map, Hold.
Qed.

Lemma get_source_capabilities_reflects_registry_witness :
  NoDup (registry_ids default_manager) /\
  dict_lookup "external_search" (get_source_capabilities default_manager)
  = Some {[ "farmer_data" := VBool false; "country_data" := VBool false;
            "global_data" := VBool true; "source_type" := VStr "external" ]}.
Proof.
  assert (Hnd : NoDup (registry_ids default_manager)).
  { apply NoDup_ListNoDup. repeat constructor; simpl; intuition discriminate. }
  split; [exact Hnd|].
  destruct (get_source_capabilities_reflects_registry unit default_manager
              (InformationSource.mk "x" "cache" "X" false false false ∅)
              empty_world Hnd) as (_ & Hlook & _).
  rewrite Hlook. reflexivity.
Defined.

(** ** The result and its audit record *)

Lemma tier_loop_events {X} (R : Retrieval X) tier query srcs :
  forall items0 w items w',
    for_each srcs (tier_body R tier query) items0 w = (Returned items, w') ->
    exists evs, trace w' = trace w ++ evs /\ List.Forall loop_event evs.
Proof.
  induction srcs as [|[source_id source] rest IH]; intros items0 w items w' Hrun.
  - simpl in Hrun. injection Hrun as <- <-. exists []. now rewrite app_nil_r.
  - simpl in Hrun. apply bind_inv in Hrun as (items1 & w1 & Hbody & Hrest).
    apply IH in Hrest as (evs & Htr & Hevs).
    assert (Hstep : exists evs1, trace w1 = trace w ++ evs1 /\ List.Forall loop_event evs1).
    { unfold tier_body in Hbody.
      destruct (capability tier source && precondition tier query);
        [destruct (kind_queried tier source)|]; exec_unfold; simpl in Hbody.
      - destruct (retrieval_method R tier query (collab w)) as [[found|e] x1];
          [|discriminate].
        injection Hbody as <- <-. simpl. rewrite <- app_assoc.
        eexists. split; [reflexivity|]. repeat constructor.
      - injection Hbody as <- <-. simpl.
        eexists. split; [reflexivity|]. repeat constructor.
      - injection Hbody as <- <-. exists []. now rewrite app_nil_r. }
    destruct Hstep as (evs1 & Htr1 & Hevs1).
    exists (evs1 ++ evs). rewrite Htr, Htr1, app_assoc. split; [reflexivity|].
    apply List.Forall_app. now split.
Qed.

Lemma tier_run_events {X} (R : Retrieval X) self query tier w items w' :
  tier_run R self query tier w items w' ->
  exists evs, trace w' = trace w ++ evs /\ List.Forall loop_event evs.
Proof.
  unfold tier_run. destruct (py_in tier _).
  - rewrite tier_query_unfold. apply tier_loop_events.
  - intros [_ ->]. exists []. now rewrite app_nil_r.
Qed.

(** The result and the world of a query that returns, in full. *)
Lemma query_information_world {X} (P : Platform X) (R : Retrieval X) self query w r w' :
  query_information P R self query w = (Returned r, w') ->
  exists fi ci gi w1 w2 w3 ts x4 ts2 x5,
    tier_run R self query FARMER_SPECIFIC w fi w1 /\
    tier_run R self query COUNTRY_SPECIFIC w1 ci w2 /\
    tier_run R self query GLOBAL w2 gi w3 /\
    utcnow_isoformat P (collab w3) = (ts, x4) /\
    utcnow_isoformat P x4 = (ts2, x5) /\
    InformationResult.query r = query /\
    w' = mkWorld x5
           (trace w3
            ++ [Log INFO "Information query completed: {}"
                  (VDict
                     {[ "timestamp" := VStr ts2;
                        "query" := VStr (InformationQuery.query_text query);
                        "farmer_id" :=
                          opt_int_val (LocalizationContext.farmer_id
                                         (InformationQuery.context query));
                        "country" :=
                          VStr (LocalizationContext.country_code
                                  (InformationQuery.context query));
                        "items_found" := VDict
                          {[ "farmer" := py_len (InformationResult.farmer_items r);
                             "country" := py_len (InformationResult.country_items r);
                             "global" := py_len (InformationResult.global_items r) ]} ]})]).
Proof.
  unfold query_information. intros H.
  apply bind_inv in H as ([r1 u1] & w1 & H1 & H).
  apply (tier_step_inv R self query FARMER_SPECIFIC InformationResult.set_farmer_items)
    in H1 as (fi & Hf & E1); [|reflexivity].
  injection E1 as -> ->.
  apply bind_inv in H as ([r2 u2] & w2 & H2 & H).
  apply (tier_step_inv R self query COUNTRY_SPECIFIC InformationResult.set_country_items)
    in H2 as (ci & Hc & E2); [|reflexivity].
  injection E2 as -> ->.
  apply bind_inv in H as ([r3 u3] & w3 & H3 & H).
  apply (tier_step_inv R self query GLOBAL InformationResult.set_global_items)
    in H3 as (gi & Hg & E3); [|reflexivity].
  injection E3 as -> ->.
  unfold _log_query in H. exec_unfold.
  destruct (utcnow_isoformat P (collab w3)) as [ts x4] eqn:Hclock1. simpl in H.
  destruct (utcnow_isoformat P x4) as [ts2 x5] eqn:Hclock2. simpl in H.
  injection H as <- <-.
  exists fi, ci, gi, w1, w2, w3, ts, x4, ts2, x5.
  do 3 (split; [assumption|]). split; [assumption|]. split; [assumption|].
  split; reflexivity.
Qed.

(** X3. Every query that returns leaves exactly one audit record: the
    tier loops add only debug records and retrievals to the trace, and
    the last event is one info record "Information query completed"
    whose entry carries the query text, the farmer id, the country code
    and, per tier, the number of items of the returned list. *)
Theorem query_information_logs_one_audit_record :
  forall (X : Type) (P : Platform X) (R : Retrieval X)
         (self : InformationHierarchyManager) (query : InformationQuery.t)
         (w : World X) (r : InformationResult.t) (w' : World X),
    query_information P R self query w = (Returned r, w') ->
    exists (evs : list Event) (entry counts : gmap string PyVal),
      trace w' = trace w ++ evs
                 ++ [Log INFO "Information query completed: {}" (VDict entry)] /\
      List.Forall loop_event evs /\
      entry !! "query" = Some (VStr (InformationQuery.query_text query)) /\
      entry !! "farmer_id"
      = Some (opt_int_val (LocalizationContext.farmer_id
                             (InformationQuery.context query))) /\
      entry !! "country"
      = Some (VStr (LocalizationContext.country_code
                      (InformationQuery.context query))) /\
      entry !! "items_found" = Some (VDict counts) /\
      counts !! "farmer"
      = Some (VInt (Z.of_nat (length (InformationResult.farmer_items r)))) /\
      counts !! "country"
      = Some (VInt (Z.of_nat (length (InformationResult.country_items r)))) /\
      counts !! "global"
      = Some (VInt (Z.of_nat (length (InformationResult.global_items r)))).
Proof.
  intros X P R self query w r w' Hrun.
  apply query_information_world in Hrun
    as (fi & ci & gi & w1 & w2 & w3 & ts & x4 & ts2 & x5
        & Hf & Hc & Hg & _ & _ & _ & ->).
  apply tier_run_events in Hf as (e1 & T1 & F1).
  apply tier_run_events in Hc as (e2 & T2 & F2).
  apply tier_run_events in Hg as (e3 & T3 & F3).
  exists (e1 ++ e2 ++ e3). eexists. eexists.
  split; [simpl; rewrite T3, T2, T1, <- !app_assoc; reflexivity|].
  split; [repeat (apply List.Forall_app; split); assumption|].
  split; [rewrite lookup_insert_ne by discriminate; apply lookup_insert_eq|].
  split; [rewrite !lookup_insert_ne by discriminate; apply lookup_insert_eq|].
  split; [rewrite !lookup_insert_ne by discriminate; apply lookup_insert_eq|].
  split; [rewrite !lookup_insert_ne by discriminate; apply lookup_singleton_eq|].
  split; [apply lookup_insert_eq|].
  split; [rewrite lookup_insert_ne by discriminate; apply lookup_insert_eq|].
  rewrite !lookup_insert_ne by discriminate. apply lookup_singleton_eq.
Qed.

Lemma query_information_logs_one_audit_record_witness :
  exists r w' evs entry,
    query_information example_platform mock_retrieval default_manager
                      example_query empty_world = (Returned r, w') /\
    trace w' = evs ++ [Log INFO "Information query completed: {}" (VDict entry)] /\
    List.Forall loop_event evs.
Proof.
  destruct (query_information example_platform mock_retrieval default_manager
                              example_query empty_world) as [[r|e] w'] eqn:Hrun.
  - destruct (query_information_logs_one_audit_record unit example_platform
                mock_retrieval default_manager example_query empty_world r w' Hrun)
      as (evs & entry & counts & Htr & Hevs & _).
    exists r, w', evs, entry. split; [reflexivity|]. split; [exact Htr|exact Hevs].
  - vm_compute in Hrun. discriminate Hrun.
Defined.

(** X4. The [total_items] of the metadata of a returned result is the
    number of items of its three lists together, and [to_dict] keeps the
    count: it serializes each list item by item, in order, as a
    content/source pair, next to the same metadata. *)
Theorem total_items_counts_the_three_lists :
  forall (X : Type) (P : Platform X) (R : Retrieval X)
         (self : InformationHierarchyManager) (query : InformationQuery.t)
         (w : World X) (r : InformationResult.t) (w' : World X),
    query_information P R self query w = (Returned r, w') ->
    InformationResult.metadata r !! "total_items"
    = Some (VInt (Z.of_nat (length (InformationResult.farmer_items r))
                  + Z.of_nat (length (InformationResult.country_items r))
                  + Z.of_nat (length (InformationResult.global_items r)))) /\
    exists (items : gmap string PyVal) (fl cl gl : list PyVal),
      to_dict r !! "items" = Some (VDict items) /\
      to_dict r !! "metadata" = Some (VDict (InformationResult.metadata r)) /\
      items !! "farmer_specific" = Some (VList fl) /\
      items !! "country_specific" = Some (VList cl) /\
      items !! "global" = Some (VList gl) /\
      fl = map item_entry (InformationResult.farmer_items r) /\
      cl = map item_entry (InformationResult.country_items r) /\
      gl = map item_entry (InformationResult.global_items r) /\
      InformationResult.metadata r !! "total_items"
      = Some (VInt (Z.of_nat (length fl + length cl + length gl))).
Proof.
  intros X P R self query w r w' Hrun.
  apply query_information_inv in Hrun
    as (fi & ci & gi & w1 & w2 & w3 & _ & _ & _ & _ & _ & _ & _ & _ & _ & Htotal & _).
  assert (Hsum : InformationResult.metadata r !! "total_items"
                 = Some (VInt (Z.of_nat (length (InformationResult.farmer_items r))
                               + Z.of_nat (length (InformationResult.country_items r))
                               + Z.of_nat (length (InformationResult.global_items r))))).
  { rewrite Htotal. unfold InformationResult.get_all_items_by_priority.
    rewrite !length_app. do 2 f_equal. lia. }
  split; [exact Hsum|].
  eexists. eexists. eexists. eexists. unfold to_dict.
  split; [rewrite !lookup_insert_ne by discriminate; apply lookup_insert_eq|].
  split; [rewrite !lookup_insert_ne by discriminate; apply lookup_singleton_eq|].
  split; [apply lookup_insert_eq|].
  split; [rewrite lookup_insert_ne by discriminate; apply lookup_insert_eq|].
  split; [rewrite !lookup_insert_ne by discriminate; apply lookup_singleton_eq|].
  do 3 (split; [reflexivity|]).
  rewrite Hsum, !length_map. do 2 f_equal. lia.
Qed.

Lemma total_items_counts_the_three_lists_witness :
  exists r w',
    query_information example_platform mock_retrieval default_manager
                      example_query empty_world = (Returned r, w') /\
    InformationResult.metadata r !! "total_items" = Some (VInt 4).
Proof.
  destruct (query_information example_platform mock_retrieval default_manager
                              example_query empty_world) as [[r|e] w'] eqn:Hrun.
  - destruct (total_items_counts_the_three_lists unit example_platform
                mock_retrieval default_manager example_query empty_world r w' Hrun)
      as (Htotal & _).
    exists r, w'. split; [reflexivity|]. rewrite Htotal.
    vm_compute in Hrun. injection Hrun as <- <-. reflexivity.
  - vm_compute in Hrun. discriminate Hrun.
Defined.

(** ** The filter and the search *)

Ltac map_lookup :=
  repeat first
    [ rewrite lookup_insert_eq
    | rewrite lookup_insert_ne by (discriminate || congruence)
    | rewrite lookup_singleton_eq
    | rewrite lookup_singleton_ne by (discriminate || congruence)
    | rewrite lookup_empty ].

(** X5. [_build_filter] keeps the four keys it knows and drops every
    other: [document_type] and [language] pass unchanged, [crop] and
    [chemical] pass lower-cased. It returns exactly when [crop] and
    [chemical], where present, are strings; otherwise it raises an
    [AttributeError]. It touches neither the trace nor the
    collaborators. *)
Theorem build_filter_keeps_known_keys :
  forall (X : Type) (P : Platform X) (filters : gmap string PyVal) (w : World X),
    match lowered P (filters !! "crop"), lowered P (filters !! "chemical") with
    | Some crop, Some chemical =>
        exists pf,
          _build_filter P filters w = (Returned pf, w) /\
          pf !! "document_type" = filters !! "document_type" /\
          pf !! "crop" = crop /\
          pf !! "chemical" = chemical /\
          pf !! "language" = filters !! "language" /\
          (forall k, k <> "document_type" -> k <> "crop" -> k <> "chemical" ->
                     k <> "language" -> pf !! k = None)
    | _, _ =>
        exists msg, _build_filter P filters w = (Raised (AttributeError msg), w)
    end.
Proof.
  intros X P filters w. unfold _build_filter, lowered, py_lower.
  destruct (filters !! "crop") as [[]|];
    destruct (filters !! "chemical") as [[]|];
    exec_unfold; simpl;
    try (eexists; reflexivity);
    destruct (filters !! "document_type"), (filters !! "language");
    (eexists; split; [reflexivity|]);
    repeat split; try (intros k H1 H2 H3 H4); map_lookup; reflexivity.
Qed.

Lemma for_each_collect {X A S} (f : A -> S) (l : list A) :
  forall (acc : list S) (w : World X),
    for_each l (fun a acc => ret (acc ++ [f a])) acc w
    = (Returned (acc ++ map f l), w).
Proof.
  induction l as [|a l IH]; intros acc w; simpl.
  - now rewrite app_nil_r.
  - unfold bind at 1. unfold ret at 1. rewrite IH. now rewrite <- app_assoc.
Qed.

Lemma document_of_match_lookup (m : Match.t) :
  document_of_match m !! "id" = Some (VStr (Match.id m)) /\
  document_of_match m !! "score" = Some (VFloat (Match.score m)) /\
  document_of_match m !! "metadata" = Some (VDict (Match.metadata m)) /\
  document_of_match m !! "text"
  = Some (dict_get_default (Match.metadata m) "text" (VStr "")) /\
  document_of_match m !! "source"
  = Some (dict_get_default (Match.metadata m) "source" (VStr "unknown")) /\
  document_of_match m !! "document_type"
  = Some (dict_get_default (Match.metadata m) "document_type" (VStr "general")) /\
  document_of_match m !! "language"
  = Some (dict_get_default (Match.metadata m) "language" (VStr "hr")) /\
  document_of_match m !! "crop" = Match.metadata m !! "crop" /\
  document_of_match m !! "chemical" = Match.metadata m !! "chemical" /\
  document_of_match m !! "phi_days" = Match.metadata m !! "phi_days".
Proof.
  unfold document_of_match.
  destruct (Match.metadata m !! "crop") eqn:Ecrop,
           (Match.metadata m !! "chemical") eqn:Echem,
           (Match.metadata m !! "phi_days") eqn:Ephi;
    repeat split; map_lookup; reflexivity.
Qed.

(** X6. When the embedding service answers, the filter is absent, empty
    or well formed, and the index answers with its matches, [search]
    returns one document per match, in the order of the index; a
    document carries the id, the score and the metadata of its match,
    the [text], [source], [document_type] and [language] of the metadata
    with the defaults [""], ["unknown"], ["general"] and ["hr"], and
    [crop], [chemical] and [phi_days] exactly when the metadata has them.
    One info record is logged, no error. *)
Theorem search_returns_one_document_per_match :
  forall (X : Type) (P : Platform X) (B : Backend X) (text : string)
         (filters passed : option (gmap string PyVal)) (top_k : Z) (w : World X)
         (vector : list Q) (x1 : X) (matches : list Match.t) (x2 : X),
    embeddings_create B embedding_model (VStr text) (collab w) = (Returned vector, x1) ->
    passed_filter P filters (mkWorld x1 (trace w)) passed ->
    index_query B vector passed top_k x1 = (Returned matches, x2) ->
    search P B text filters top_k w
    = (Returned (map document_of_match matches),
       mkWorld x2
         (trace w
          ++ [Log INFO "Found {} documents for query: {}"
                (VList [VInt (Z.of_nat (length matches)); VStr text])])) /\
    (forall m, In m matches ->
       document_of_match m !! "id" = Some (VStr (Match.id m)) /\
       document_of_match m !! "score" = Some (VFloat (Match.score m)) /\
       document_of_match m !! "metadata" = Some (VDict (Match.metadata m)) /\
       document_of_match m !! "text"
       = Some (dict_get_default (Match.metadata m) "text" (VStr "")) /\
       document_of_match m !! "source"
       = Some (dict_get_default (Match.metadata m) "source" (VStr "unknown")) /\
       document_of_match m !! "document_type"
       = Some (dict_get_default (Match.metadata m) "document_type" (VStr "general")) /\
       document_of_match m !! "language"
       = Some (dict_get_default (Match.metadata m) "language" (VStr "hr")) /\
       document_of_match m !! "crop" = Match.metadata m !! "crop" /\
       document_of_match m !! "chemical" = Match.metadata m !! "chemical" /\
       document_of_match m !! "phi_days" = Match.metadata m !! "phi_days").
Proof.
  intros X P B text filters passed top_k w vector x1 matches x2 Hemb Hpass Hindex.
  split; [|intros m _; apply document_of_match_lookup].
  unfold search, try_except.
  erewrite bind_returned;
    [|unfold _get_embedding, try_except, call; rewrite Hemb; reflexivity].
  assert (Hfilter :
            (match filters with
             | Some f =>
                 if truthy_filters filters
                 then pf <- _build_filter P f ;; ret (Some pf)
                 else ret None
             | None => ret None
             end) (mkWorld x1 (trace w)) = (Returned passed, mkWorld x1 (trace w))).
  { unfold passed_filter in Hpass. destruct filters as [f|]; [|now subst].
    destruct (truthy_filters (Some f)); [|now subst].
    destruct Hpass as (pf & Hpf & ->). erewrite bind_returned by exact Hpf. reflexivity. }
  erewrite bind_returned by exact Hfilter.
  erewrite bind_returned; [|unfold call; simpl; rewrite Hindex; reflexivity].
  erewrite bind_returned by apply for_each_collect.
  exec_unfold. simpl. now rewrite length_map.
Qed.

Lemma search_returns_one_document_per_match_witness :
  passed_filter example_platform
    (Some {[ "crop" := VStr "Wheat" ]}) (mkWorld tt [])
    (Some {[ "crop" := VStr "wheat" ]}) /\
  exists docs w',
    search example_platform example_backend "Prosaro"
           (Some {[ "crop" := VStr "Wheat" ]}) 5 empty_world = (Returned docs, w') /\
    length docs = 1%nat.
Proof.
  assert (Hpass : passed_filter example_platform
                    (Some {[ "crop" := VStr "Wheat" ]}) (mkWorld tt [])
                    (Some {[ "crop" := VStr "wheat" ]})).
  { unfold passed_filter. change (truthy_filters _) with true. cbv iota.
    eexists. split; [|reflexivity]. vm_compute. reflexivity. }
  split; [exact Hpass|].
  destruct (search_returns_one_document_per_match unit example_platform example_backend
              "Prosaro" (Some {[ "crop" := VStr "Wheat" ]})
              (Some {[ "crop" := VStr "wheat" ]}) 5 empty_world
              [1 # 2; 1 # 4] tt
              [Match.mk "fis_1" (9 # 10)
                 {[ "text" := VStr "Prosaro: 35 days"; "phi_days" := VInt 35 ]}] tt
              eq_refl Hpass eq_refl) as (Hrun & _).
  eexists. eexists. split; [exact Hrun|reflexivity].
Defined.

(** X7. A filter whose [crop] or [chemical] is not a string makes
    [search] answer with no document: once the embedding is there,
    [_build_filter] raises, [search] logs one error and returns the
    empty list, and the index is never asked (the collaborators stay as
    the embedding service left them). *)
Theorem search_with_malformed_filter :
  forall (X : Type) (P : Platform X) (B : Backend X) (text : string)
         (f : gmap string PyVal) (top_k : Z) (w : World X)
         (vector : list Q) (x1 : X),
    embeddings_create B embedding_model (VStr text) (collab w) = (Returned vector, x1) ->
    lowered P (f !! "crop") = None \/ lowered P (f !! "chemical") = None ->
    exists msg,
      search P B text (Some f) top_k w
      = (Returned [],
         mkWorld x1 (trace w ++ [Log ERROR "Knowledge search error: {}" (VStr msg)])).
Proof.
  intros X P B text f top_k w vector x1 Hemb Hbad.
  assert (Hne : f <> ∅).
  { destruct Hbad as [H|H]; unfold lowered in H;
      [destruct (f !! "crop") eqn:E|destruct (f !! "chemical") eqn:E];
      try discriminate; eapply lookup_Some_nonempty; eauto. }
  pose proof (build_filter_keeps_known_keys X P f (mkWorld x1 (trace w))) as Hbuild.
  assert (Hraise : exists msg,
             _build_filter P f (mkWorld x1 (trace w))
             = (Raised (AttributeError msg), mkWorld x1 (trace w))).
  { destruct Hbad as [H|H]; rewrite H in Hbuild.
    - exact Hbuild.
    - destruct (lowered P (f !! "crop")); exact Hbuild. }
  destruct Hraise as (msg & Hraise). exists msg.
  unfold search, try_except.
  erewrite bind_returned;
    [|unfold _get_embedding, try_except, call; rewrite Hemb; reflexivity].
  erewrite bind_raised; cycle 1.
  { unfold truthy_filters. rewrite bool_decide_eq_false_2 by assumption.
    cbn [negb]. erewrite bind_raised; [reflexivity|exact Hraise]. }
  reflexivity.
Qed.

Lemma search_with_malformed_filter_witness :
  lowered example_platform
          (({[ "crop" := VInt 7 ]} : gmap string PyVal) !! "crop") = None /\
  exists msg,
    search example_platform example_backend "Copper" (Some {[ "crop" := VInt 7 ]}) 5
           empty_world
    = (Returned [],
       mkWorld tt [Log ERROR "Knowledge search error: {}" (VStr msg)]).
Proof.
  split; [reflexivity|].
  apply (search_with_malformed_filter unit example_platform example_backend "Copper"
           {[ "crop" := VInt 7 ]} 5 empty_world [1 # 2; 1 # 4] tt);
    [reflexivity|left; reflexivity].
Defined.

(** ** [add_document] *)

(** X8. A document without [text] is refused before anything is asked
    of the embedding service or of the index: [add_document] returns
    [False], logs the [KeyError] and leaves the collaborators as they
    were. *)
Theorem add_document_without_text :
  forall (X : Type) (P : Platform X) (B : Backend X)
         (document : gmap string PyVal) (w : World X),
    document !! "text" = None ->
    add_document P B document w
    = (Returned false,
       mkWorld (collab w)
         (trace w ++ [Log ERROR "Error adding document: {}" (VStr "'text'")])).
Proof.
  intros X P B document w Hmissing.
  unfold add_document, try_except.
  erewrite bind_raised; cycle 1.
  { unfold dict_get. rewrite Hmissing. reflexivity. }
  reflexivity.
Qed.

Lemma add_document_without_text_witness :
  ({[ "source" := VStr "fis" ]} : gmap string PyVal) !! "text" = None /\
  add_document example_platform example_backend {[ "source" := VStr "fis" ]} empty_world
  = (Returned false,
     mkWorld tt [Log ERROR "Error adding document: {}" (VStr "'text'")]).
Proof.
  split; [reflexivity|].
  apply (add_document_without_text unit example_platform example_backend
           {[ "source" := VStr "fis" ]} empty_world).
  reflexivity.
Defined.

(** X9. [add_document] returns [True] only after the index has accepted
    the document: the document has a text, the embedding service
    embedded it, [crop] and [chemical] where present are strings, and the
    upsert of the vector succeeded under the id made of the source label
    (["doc"] when there is none) and the hash of the text. The stored
    metadata holds the text, the source, document type and language with
    the defaults ["manual"], ["general"] and ["hr"], the time of
    indexing, the lower-cased crop and chemical and the [phi_days] of the
    document; one info record names the id. *)
Theorem add_document_true_means_stored :
  forall (X : Type) (P : Platform X) (B : Backend X)
         (document : gmap string PyVal) (w w' : World X),
    add_document P B document w = (Returned true, w') ->
    exists text vector x1 indexed_at x2 h (metadata : gmap string PyVal) x3
           crop chemical,
      document !! "text" = Some text /\
      embeddings_create B embedding_model text (collab w) = (Returned vector, x1) /\
      now_isoformat P x1 = (indexed_at, x2) /\
      lowered P (document !! "crop") = Some crop /\
      lowered P (document !! "chemical") = Some chemical /\
      py_hash P text = Returned h /\
      index_upsert B
        (py_str P (dict_get_default document "source" (VStr "doc")) +:+ "_" +:+ pretty h)
        vector metadata x2 = (Returned tt, x3) /\
      metadata !! "text" = Some text /\
      metadata !! "source" = Some (dict_get_default document "source" (VStr "manual")) /\
      metadata !! "document_type"
      = Some (dict_get_default document "document_type" (VStr "general")) /\
      metadata !! "language" = Some (dict_get_default document "language" (VStr "hr")) /\
      metadata !! "indexed_at" = Some (VStr indexed_at) /\
      metadata !! "crop" = crop /\
      metadata !! "chemical" = chemical /\
      metadata !! "phi_days" = document !! "phi_days" /\
      w' = mkWorld x3
             (trace w
              ++ [Log INFO "Added document {} to knowledge base"
                    (VStr (py_str P (dict_get_default document "source" (VStr "doc"))
                           +:+ "_" +:+ pretty h))]).
Proof.
  intros X P B document w w' Hrun.
  unfold add_document, try_except in Hrun.
  match type of Hrun with
  | (match ?body w with _ => _ end) = _ => destruct (body w) as [[ok|e] wb] eqn:Hbody
  end; [|exec_unfold; discriminate].
  injection Hrun as -> ->.
  apply bind_inv in Hbody as (text & w1 & Htext & Hbody).
  unfold dict_get in Htext. destruct (document !! "text") as [t|] eqn:Et;
    [|discriminate]. unfold ret in Htext. injection Htext as <- <-.
  apply bind_inv in Hbody as (vector & w2 & Hemb & Hbody).
  unfold _get_embedding, try_except, call in Hemb.
  destruct (embeddings_create B embedding_model t (collab w)) as [[v|e] x1] eqn:Ecall;
    [|exec_unfold; discriminate].
  injection Hemb as <- <-.
  apply bind_inv in Hbody as (text2 & w3 & Htext2 & Hbody).
  unfold dict_get in Htext2. rewrite Et in Htext2. unfold ret in Htext2.
  injection Htext2 as <- <-.
  apply bind_inv in Hbody as (indexed_at & w4 & Hclock & Hbody).
  unfold read_clock in Hclock. simpl in Hclock.
  destruct (now_isoformat P x1) as [ts x2] eqn:Enow. injection Hclock as <- <-.
  apply bind_inv in Hbody as (md1 & w5 & Hcrop & Hbody).
  apply lower_step in Hcrop as (crop & Ecrop & -> & ->).
  apply bind_inv in Hbody as (md2 & w6 & Hchem & Hbody).
  apply lower_step in Hchem as (chemical & Echem & -> & ->).
  apply bind_inv in Hbody as (text3 & w7 & Htext3 & Hbody).
  unfold dict_get in Htext3. rewrite Et in Htext3. unfold ret in Htext3.
  injection Htext3 as <- <-.
  apply bind_inv in Hbody as (h & w8 & Hhash & Hbody).
  unfold lift in Hhash. injection Hhash as Hhash <-.
  apply bind_inv in Hbody as ([] & w9 & Hupsert & Hbody).
  unfold call in Hupsert. simpl in Hupsert.
  match type of Hupsert with
  | (let (_, _) := ?c in _) = _ => destruct c as [[[]|e] x3] eqn:Eupsert
  end; [|discriminate].
  injection Hupsert as <-.
  exec_unfold. simpl in Hbody. injection Hbody as <-.
  exists t, v, x1, ts, x2, h. eexists. exists x3, crop, chemical.
  do 6 (split; [assumption || reflexivity|]).
  split; [exact Eupsert|].
  destruct crop, chemical, (document !! "phi_days");
    repeat split; map_lookup; reflexivity.
Qed.

Lemma add_document_true_means_stored_witness :
  exists w',
    add_document example_platform example_backend
      {[ "text" := VStr "Prosaro in wheat"; "crop" := VStr "Wheat" ]} empty_world
    = (Returned true, w') /\
    trace w' = [Log INFO "Added document {} to knowledge base" (VStr "doc_16")].
Proof.
  destruct (add_document example_platform example_backend
              {[ "text" := VStr "Prosaro in wheat"; "crop" := VStr "Wheat" ]}
              empty_world) as [[[|]|e] w'] eqn:Hrun;
    try (vm_compute in Hrun; discriminate Hrun).
  exists w'. split; [reflexivity|].
  destruct (add_document_true_means_stored unit example_platform example_backend
              _ empty_world w' Hrun)
    as (text & vector & x1 & ts & x2 & h & md & x3 & crop & chem
        & Htext & _ & _ & _ & _ & Hhash & _ & _ & _ & _ & _ & _ & _ & _ & _ & ->).
  vm_compute in Htext. injection Htext as <-.
  vm_compute in Hhash. injection Hhash as <-.
  reflexivity.
Defined.

(** ** The specialized searches *)

(** The documents of [search] are images of matches. *)
Lemma search_documents_shape {X} (P : Platform X) (B : Backend X)
    text filters top_k w docs w' :
  search P B text filters top_k w = (Returned docs, w') ->
  exists matches, docs = map document_of_match matches.
Proof.
  unfold search, try_except.
  match goal with
  | |- (match ?body w with _ => _ end) = _ -> _ =>
      destruct (body w) as [[d|e] wb] eqn:Hbody
  end.
  - intros H. injection H as <- <-.
    apply bind_inv in Hbody as (vector & w1 & _ & Hbody).
    apply bind_inv in Hbody as (pfo & w2 & _ & Hbody).
    apply bind_inv in Hbody as (matches & w3 & _ & Hbody).
    apply bind_inv in Hbody as (documents & w4 & Hloop & Hbody).
    rewrite for_each_collect in Hloop. injection Hloop as <- <-.
    exec_unfold. simpl in Hbody. injection Hbody as <- _.
    now exists matches.
  - exec_unfold. intros H. injection H as <- _. now exists [].
Qed.

Lemma document_shape (m : Match.t) :
  document_of_match m !! "metadata" = Some (VDict (Match.metadata m)) /\
  doc_metadata (document_of_match m) = Match.metadata m /\
  doc_phi_days (document_of_match m) = Match.metadata m !! "phi_days" /\
  is_Some (document_of_match m !! "source") /\
  is_Some (document_of_match m !! "text").
Proof.
  destruct (document_of_match_lookup m)
    as (_ & _ & Hmd & Htext & Hsource & _).
  unfold doc_metadata, doc_phi_days. rewrite Hmd, Htext, Hsource.
  repeat split; eauto.
Qed.

Lemma first_phi_info_spec {X} (P : Platform X) chemical_name crop matches (w : World X) :
  exists o,
    first_phi_info chemical_name crop (map document_of_match matches) w
    = (Returned o, w) /\
    match o with
    | None =>
        List.Forall (fun d => doc_phi_days d = None) (map document_of_match matches)
    | Some info =>
        exists pre doc post phi,
          map document_of_match matches = pre ++ doc :: post /\
          List.Forall (fun d => doc_phi_days d = None) pre /\
          doc_phi_days doc = Some phi /\
          info !! "chemical" = Some (VStr chemical_name) /\
          info !! "phi_days" = Some phi /\
          info !! "source" = doc !! "source" /\
          info !! "additional_info" = doc !! "text" /\
          info !! "crop"
          = Some (match crop with
                  | Some c => if truthy_str c then VStr c
                              else dict_get_default doc "crop" (VStr "")
                  | None => dict_get_default doc "crop" (VStr "")
                  end)
    end.
Proof.
  induction matches as [|m rest IH]; simpl.
  - exists None. split; [reflexivity|constructor].
  - destruct (document_shape m) as (Hmd & _ & Hphi & [source Hsource] & [text Htext]).
    unfold dict_get_default at 1. rewrite Hmd. unfold py_contains.
    destruct (Match.metadata m !! "phi_days") as [phi|] eqn:Ephi.
    + eexists (Some _). split.
      * unfold bind at 1. unfold ret at 1.
        unfold dict_get, py_getitem. rewrite Hmd, Hsource, Htext.
        unfold bind, ret. unfold dict_get. rewrite Ephi. reflexivity.
      * exists [], (document_of_match m), (map document_of_match rest), phi.
        split; [reflexivity|]. split; [constructor|]. split; [assumption|].
        rewrite Hsource, Htext. repeat split; map_lookup; reflexivity.
    + destruct IH as (o & Hrun & Hspec). exists o. split.
      * unfold bind at 1. unfold ret at 1. exact Hrun.
      * destruct o as [info|].
        -- destruct Hspec as (pre & doc & post & phi & Hdocs & Hpre & Hspec).
           exists (document_of_match m :: pre), doc, post, phi.
           split; [simpl; now rewrite Hdocs|]. split; [now constructor|exact Hspec].
        -- now constructor.
Qed.

Lemma first_hit_unique {A} (Q : A -> Prop) pre d post pre' d' post' :
  pre ++ d :: post = pre' ++ d' :: post' ->
  List.Forall (fun a => ~ Q a) pre -> List.Forall (fun a => ~ Q a) pre' ->
  Q d -> Q d' -> d = d'.
Proof.
  revert pre'. induction pre as [|a pre IH]; intros [|a' pre'] E Hp Hp' Hd Hd';
    simpl in E; injection E as E1 E2.
  - assumption.
  - subst. inversion Hp'. contradiction.
  - subst. inversion Hp. contradiction.
  - inversion Hp. inversion Hp'. eapply IH; eauto.
Qed.

(** X10. [search_pesticide_info] never raises and never answers with an
    [error] entry: [search] has caught every failure before, so the
    handler of [search_pesticide_info] is never entered. It searches
    with at most 3 results and the filter of pesticide documents, hands
    back the documents of [search], and reports the interval of the
    first document, in the order of [search], whose metadata has
    [phi_days], with the source and the text of that document and the
    name of the chemical as the caller wrote it; when no document has
    one, [found] is false and a message names the chemical. *)
Theorem search_pesticide_info_reports_first_interval :
  forall (X : Type) (P : Platform X) (B : Backend X)
         (chemical_name : string) (crop : option string) (w : World X),
  exists (docs : list (gmap string PyVal)) (w1 : World X)
         (result : gmap string PyVal),
    search P B (pesticide_query chemical_name crop)
           (Some (pesticide_filters P chemical_name crop)) 3 w = (Returned docs, w1) /\
    search_pesticide_info P B chemical_name crop w = (Returned result, w1) /\
    result !! "documents" = Some (VList (map VDict docs)) /\
    result !! "error" = None /\
    (List.Forall (fun d => doc_phi_days d = None) docs ->
     result !! "found" = Some (VBool false) /\
     result !! "pesticide_info" = None /\
     result !! "message"
     = Some (VStr ("No PHI information found for " +:+ chemical_name))) /\
    (forall pre doc post phi,
        docs = pre ++ doc :: post ->
        List.Forall (fun d => doc_phi_days d = None) pre ->
        doc_phi_days doc = Some phi ->
        result !! "found" = Some (VBool true) /\
        exists info,
          result !! "pesticide_info" = Some (VDict info) /\
          info !! "chemical" = Some (VStr chemical_name) /\
          info !! "phi_days" = Some phi /\
          info !! "source" = doc !! "source" /\
          info !! "additional_info" = doc !! "text" /\
          info !! "crop"
          = Some (match crop with
                  | Some c => if truthy_str c then VStr c
                              else dict_get_default doc "crop" (VStr "")
                  | None => dict_get_default doc "crop" (VStr "")
                  end)).
Proof.
  intros X P B chemical_name crop w.
  destruct (search_returns P B (pesticide_query chemical_name crop)
              (Some (pesticide_filters P chemical_name crop)) 3 w)
    as (docs & w1 & Hsearch).
  destruct (search_documents_shape P B _ _ _ _ _ _ Hsearch) as (matches & ->).
  destruct (first_phi_info_spec P chemical_name crop matches w1)
    as (o & Hfirst & Hspec).
  exists (map document_of_match matches), w1.
  destruct o as [info|].
  - eexists. split; [exact Hsearch|].
    split.
    { unfold search_pesticide_info, try_except.
      erewrite bind_returned by exact Hsearch.
      erewrite bind_returned by exact Hfirst. reflexivity. }
    destruct Hspec as (pre0 & doc0 & post0 & phi0 & Hdocs & Hpre0 & Hphi0 & Hinfo).
    split; [map_lookup; reflexivity|]. split; [map_lookup; reflexivity|].
    split.
    + intros Hnone. exfalso. rewrite Hdocs in Hnone.
      apply List.Forall_app in Hnone as [_ Hnone]. inversion Hnone. congruence.
    + intros pre doc post phi Hsplit Hpre Hphi.
      split; [map_lookup; reflexivity|].
      assert (Hsame : doc0 = doc).
      { eapply (first_hit_unique (fun d => doc_phi_days d <> None)).
        - rewrite <- Hdocs. exact Hsplit.
        - eapply List.Forall_impl; [|exact Hpre0]. simpl. intros a Ha Hn. now apply Hn.
        - eapply List.Forall_impl; [|exact Hpre]. simpl. intros a Ha Hn. now apply Hn.
        - congruence.
        - congruence. }
      subst doc0. assert (phi0 = phi) by congruence. subst phi0.
      exists info. split; [map_lookup; reflexivity|]. exact Hinfo.
  - eexists. split; [exact Hsearch|].
    split.
    { unfold search_pesticide_info, try_except.
      erewrite bind_returned by exact Hsearch.
      erewrite bind_returned by exact Hfirst. reflexivity. }
    split; [map_lookup; reflexivity|]. split; [map_lookup; reflexivity|].
    split.
    + intros _. repeat split; map_lookup; reflexivity.
    + intros pre doc post phi Hsplit Hpre Hphi. exfalso.
      rewrite Hsplit in Hspec. apply List.Forall_app in Hspec as [_ Hspec].
      inversion Hspec. congruence.
Qed.

Example search_pesticide_info_example :
  match fst (search_pesticide_info example_platform example_backend "Prosaro"
               (Some "Wheat") empty_world) with
  | Returned result =>
      (result !! "found",
       match result !! "pesticide_info" with
       | Some (VDict info) => (info !! "phi_days", info !! "crop")
       | _ => (None, None)
       end)
  | Raised _ => (None, (None, None))
  end
  = (Some (VBool true), (Some (VInt 35), Some (VStr "Wheat"))).
Proof. vm_compute. reflexivity. Qed.

Lemma grouped_inv (doc : gmap string PyVal) :
  grouped doc = true ->
  exists s, protection_type_of doc = VStr s /\ In s protection_groups.
Proof.
  unfold grouped. intros H. apply existsb_exists in H as (g & Hg & Hin).
  unfold in_group in Hin. destruct (protection_type_of doc); try discriminate.
  apply String.eqb_eq in Hin. subst. eauto.
Qed.

Lemma in_group_of (doc : gmap string PyVal) s k :
  protection_type_of doc = VStr s -> in_group k doc = String.eqb s k.
Proof. unfold in_group. now intros ->. Qed.

Lemma crop_step_ok {X} (P : Platform X) (m : Match.t) pi s g (w : World X) :
  protection_type_of (document_of_match m) = VStr s ->
  pi !! s = Some g ->
  crop_protection_body P (document_of_match m) pi w
  = (Returned (<[s := g ++ [protection_entry (document_of_match m)]]> pi), w).
Proof.
  intros Htype Hg.
  destruct (document_shape m) as (Hmd & Hdm & _ & _ & [text Htext]).
  assert (Hmeta : dict_get_default (document_of_match m) "metadata" (VDict ∅)
                  = VDict (Match.metadata m)).
  { unfold dict_get_default. now rewrite Hmd. }
  assert (Htxt : dict_get_default (document_of_match m) "text" (VStr "") = text).
  { unfold dict_get_default. now rewrite Htext. }
  unfold crop_protection_body, protection_entry.
  unfold protection_type_of in Htype. rewrite Hdm in *. rewrite Hmeta, Htxt.
  erewrite bind_returned by reflexivity. rewrite Htype.
  erewrite bind_returned;
    [|unfold group_get; erewrite bind_returned;
      [reflexivity|unfold dict_get; rewrite Hg; reflexivity]].
  do 4 (erewrite bind_returned by reflexivity).
  erewrite bind_returned by (unfold dict_get; rewrite Htext; reflexivity).
  reflexivity.
Qed.

Lemma crop_step_fail {X} (P : Platform X) (m : Match.t) pi (w : World X) :
  (forall k, is_Some (pi !! k) <-> In k protection_groups) ->
  grouped (document_of_match m) = false ->
  exists e, crop_protection_body P (document_of_match m) pi w = (Raised e, w).
Proof.
  intros Hdom Hun.
  destruct (document_shape m) as (Hmd & Hdm & _).
  unfold crop_protection_body.
  unfold dict_get_default at 1. rewrite Hmd.
  unfold py_get at 1. unfold bind at 1. unfold ret at 1.
  assert (Htype : dict_get_default (Match.metadata m) "protection_type" (VStr "general")
                  = protection_type_of (document_of_match m)).
  { unfold protection_type_of. now rewrite Hdm. }
  rewrite Htype.
  destruct (protection_type_of (document_of_match m)) as [| | | |s| |] eqn:E;
    unfold group_get; try (unfold bind, raise; eauto; fail).
  assert (Hnone : pi !! s = None).
  { destruct (pi !! s) eqn:Es; [|reflexivity]. exfalso.
    assert (Hin : In s protection_groups) by (apply Hdom; eauto).
    unfold grouped in Hun.
    assert (existsb (fun g => in_group g (document_of_match m)) protection_groups = true).
    { apply existsb_exists. exists s. split; [assumption|].
      rewrite (in_group_of _ s) by assumption. apply String.eqb_refl. }
    congruence. }
  unfold dict_get. rewrite Hnone. unfold bind, raise. eauto.
Qed.

Lemma crop_loop_ok {X} (P : Platform X) (matches : list Match.t) :
  forall pi (w : World X),
    (forall k, is_Some (pi !! k) <-> In k protection_groups) ->
    forallb grouped (map document_of_match matches) = true ->
    exists pi',
      for_each (map document_of_match matches) (crop_protection_body P) pi w
      = (Returned pi', w) /\
      forall k,
        pi' !! k
        = (fun l => l ++ map protection_entry
                          (List.filter (in_group k) (map document_of_match matches)))
          <$> pi !! k.
Proof.
  induction matches as [|m rest IH]; intros pi w Hdom Hall; simpl.
  - exists pi. split; [reflexivity|]. intros k.
    destruct (pi !! k); simpl; [now rewrite app_nil_r|reflexivity].
  - simpl in Hall. apply andb_prop in Hall as [Hm Hrest].
    destruct (grouped_inv _ Hm) as (s & Htype & Hin).
    destruct (proj2 (Hdom s) Hin) as [g Hg].
    destruct (IH (<[s := g ++ [protection_entry (document_of_match m)]]> pi) w)
      as (pi' & Hrun & Hlook); [|assumption|].
    { intros k. destruct (decide (s = k)) as [<-|Hne].
      - rewrite lookup_insert_eq. split; [intros _; assumption|eauto].
      - rewrite lookup_insert_ne by assumption. apply Hdom. }
    exists pi'. split.
    + erewrite bind_returned by (apply crop_step_ok; eassumption). exact Hrun.
    + intros k. rewrite Hlook, (in_group_of _ s) by assumption.
      destruct (decide (s = k)) as [<-|Hne].
      * rewrite lookup_insert_eq, Hg, String.eqb_refl. simpl.
        now rewrite <- app_assoc.
      * rewrite lookup_insert_ne by assumption.
        apply String.eqb_neq in Hne. now rewrite Hne.
Qed.

Lemma crop_loop_fail {X} (P : Platform X) (matches : list Match.t) :
  forall pi (w : World X),
    (forall k, is_Some (pi !! k) <-> In k protection_groups) ->
    forallb grouped (map document_of_match matches) = false ->
    exists e,
      for_each (map document_of_match matches) (crop_protection_body P) pi w
      = (Raised e, w).
Proof.
  induction matches as [|m rest IH]; intros pi w Hdom Hall; simpl in *.
  - discriminate.
  - destruct (grouped (document_of_match m)) eqn:Hm; simpl in Hall.
    + destruct (grouped_inv _ Hm) as (s & Htype & Hin).
      destruct (proj2 (Hdom s) Hin) as [g Hg].
      destruct (IH (<[s := g ++ [protection_entry (document_of_match m)]]> pi) w)
        as (e & Hrun); [|assumption|].
      { intros k. destruct (decide (s = k)) as [<-|Hne].
        - rewrite lookup_insert_eq. split; [intros _; assumption|eauto].
        - rewrite lookup_insert_ne by assumption. apply Hdom. }
      exists e.
      erewrite bind_returned by (apply crop_step_ok; eassumption). exact Hrun.
    + destruct (crop_step_fail P m pi w Hdom Hm) as (e & Hstep).
      exists e. erewrite bind_raised by exact Hstep. reflexivity.
Qed.

Lemma empty_protection_info_dom k :
  is_Some (empty_protection_info !! k) <-> In k protection_groups.
Proof.
  unfold empty_protection_info, protection_groups. simpl. split.
  - intros [l Hl].
    destruct (decide (k = "fungicides")); [subst; tauto|].
    destruct (decide (k = "insecticides")); [subst; tauto|].
    destruct (decide (k = "herbicides")); [subst; tauto|].
    destruct (decide (k = "general")); [subst; tauto|].
    exfalso. revert Hl. map_lookup. discriminate.
  - intros [<-|[<-|[<-|[<-|[]]]]]; map_lookup; eauto.
Qed.

(** X11. [search_crop_protection] never raises. It searches with at most
    5 results and the filter of crop-protection documents. When every
    document of [search] names one of the four lists ([fungicides],
    [insecticides], [herbicides], [general]) as its [protection_type],
    or names none and so goes to [general], the answer has exactly these
    four lists and each document appears once, in the list it names, in
    the order of [search]. As soon as one document names anything else,
    the answer is a single [error] entry: the recommendations of all the
    documents are lost, and the error is logged. *)
Theorem search_crop_protection_groups_documents :
  forall (X : Type) (P : Platform X) (B : Backend X)
         (crop : string) (problem : option string) (w : World X),
  exists (docs : list (gmap string PyVal)) (w1 : World X),
    search P B (crop_protection_query crop problem)
           (Some {[ "document_type" := VStr "crop_protection";
                    "crop" := VStr (str_lower P crop) ]}) 5 w = (Returned docs, w1) /\
    (forallb grouped docs = true ->
     exists result,
       search_crop_protection P B crop problem w = (Returned result, w1) /\
       (forall g, In g protection_groups ->
          result !! g
          = Some (VList (map VDict (map protection_entry
                                        (List.filter (in_group g) docs))))) /\
       (forall k, ~ In k protection_groups -> result !! k = None)) /\
    (forallb grouped docs = false ->
     exists msg,
       search_crop_protection P B crop problem w
       = (Returned {[ "error" := VStr msg ]},
          mkWorld (collab w1)
            (trace w1 ++ [Log ERROR "Crop protection search error: {}" (VStr msg)]))).
Proof.
  intros X P B crop problem w.
  destruct (search_returns P B (crop_protection_query crop problem)
              (Some {[ "document_type" := VStr "crop_protection";
                       "crop" := VStr (str_lower P crop) ]}) 5 w)
    as (docs & w1 & Hsearch).
  destruct (search_documents_shape P B _ _ _ _ _ _ Hsearch) as (matches & ->).
  exists (map document_of_match matches), w1.
  split; [exact Hsearch|]. split.
  - intros Hall.
    destruct (crop_loop_ok P matches empty_protection_info w1
                empty_protection_info_dom Hall) as (pi' & Hloop & Hlook).
    eexists. split.
    { unfold search_crop_protection, try_except.
      erewrite bind_returned by exact Hsearch.
      erewrite bind_returned by exact Hloop. reflexivity. }
    split.
    + intros g Hg. rewrite lookup_fmap, Hlook.
      destruct (proj2 (empty_protection_info_dom g) Hg) as [l Hl].
      assert (l = []).
      { revert Hl. unfold empty_protection_info.
        destruct Hg as [<-|[<-|[<-|[<-|[]]]]]; map_lookup; congruence. }
      subst l. rewrite Hl. reflexivity.
    + intros k Hk. rewrite lookup_fmap, Hlook.
      destruct (empty_protection_info !! k) eqn:E; [|reflexivity].
      exfalso. apply Hk, empty_protection_info_dom. eauto.
  - intros Hsome.
    destruct (crop_loop_fail P matches empty_protection_info w1
                empty_protection_info_dom Hsome) as (e & Hloop).
    exists (exn_str e).
    unfold search_crop_protection, try_except.
    erewrite bind_returned by exact Hsearch.
    erewrite bind_raised by exact Hloop. reflexivity.
Qed.

Lemma search_crop_protection_groups_documents_witness :
  exists msg w',
    search_crop_protection example_platform acaricide_backend "vines" None empty_world
    = (Returned {[ "error" := VStr msg ]}, w') /\
    errors (trace w')
    = [Log ERROR "Crop protection search error: {}" (VStr msg)].
Proof.
  destruct (search_crop_protection_groups_documents unit example_platform
              acaricide_backend "vines" None empty_world)
    as (docs & w1 & Hsearch & _ & Hfail).
  assert (Hknown :
            search example_platform acaricide_backend
              (crop_protection_query "vines" None)
              (Some {[ "document_type" := VStr "crop_protection";
                       "crop" := VStr (str_lower example_platform "vines") ]})
              5 empty_world
            = (Returned
                 (map document_of_match
                    [ Match.mk "fis_7" (9 # 10)
                        {[ "text" := VStr "Copper against downy mildew";
                           "protection_type" := VStr "fungicides";
                           "chemical" := VStr "copper" ]};
                      Match.mk "fis_8" (8 # 10)
                        {[ "text" := VStr "Sulphur against mites";
                           "protection_type" := VStr "acaricides" ]} ]),
               mkWorld tt
                 [Log INFO "Found {} documents for query: {}"
                    (VList [VInt 2; VStr "vines protection"])])).
  { vm_compute. reflexivity. }
  rewrite Hknown in Hsearch. injection Hsearch as <- <-.
  destruct (Hfail ltac:(vm_compute; reflexivity)) as (msg & Hrun).
  exists msg. eexists. split; [exact Hrun|]. reflexivity.
Defined.
